(** * Reddit Search Toolkit: a shallow embedding of [reddit.py]

    The two tool methods of class [Tools] ([search], [get_top_comments])
    and the helper [_emit_status] are translated into Rocq functions.
    Python values decoded from JSON are a small inductive type, Python
    exceptions are the [Raise] results of an error monad, and the effects
    of the handlers (payloads handed to the status callback, tasks put on
    the event loop, HTTP requests sent) are logged in an explicit [world]
    that is threaded through a state-and-error monad.

    Text is modelled as Rocq [string]s, that is as ASCII text: one
    character per byte. *)

From Stdlib Require Import ZArith String Ascii List Bool Lia.
From stdpp Require Import base tactics option list strings pretty.

Set Warnings "-register-all".

Local Open Scope string_scope.
Local Open Scope Z_scope.

(** ** Python values, exceptions and results *)

(** Values produced by [response.json()] and built by the handlers.
    [PNone] is both JSON [null] and the result of a [.get] that misses.
    A number with a fraction or an exponent is only ever passed through,
    so it is kept as its literal. *)
Inductive pyval : Type :=
  | PNone
  | PBool (b : bool)
  | PInt (n : Z)
  | PFloat (lit : string)
  | PStr (s : string)
  | PList (items : list pyval)
  | PDict (entries : list (string * pyval)).

(** The exception classes that the code can meet.  [EmitterError] stands
    for whatever class a host callback chooses to throw. *)
Inductive exc : Type :=
  | ValueError
  | TypeError
  | AttributeError
  | KeyError
  | IndexError
  | RuntimeError
  | HTTPError
  | RequestException
  | JSONDecodeError
  | EmitterError (tag : string).

Inductive result (A : Type) : Type :=
  | Ok (a : A)
  | Raise (e : exc).
Arguments Ok {A} a.
Arguments Raise {A} e.

#[global] Instance result_ret : MRet result := fun A a => Ok a.
#[global] Instance result_bind : MBind result :=
  fun A B f m => match m with Ok a => f a | Raise e => Raise e end.

(** [isinstance(e, cls)] for the classes named in [except] clauses:
    [requests.exceptions.JSONDecodeError] derives from [ValueError]. *)
Definition exc_isinstance (e cls : exc) : bool :=
  match cls, e with
  | ValueError, (ValueError | JSONDecodeError) => true
  | RuntimeError, RuntimeError => true
  | JSONDecodeError, JSONDecodeError => true
  | _, _ => false
  end.

(** [try: body except cls: handler] on pure computations. *)
Definition try_except {A} (body : result A) (cls : exc) (handler : result A)
  : result A :=
  match body with
  | Ok a => Ok a
  | Raise e => if exc_isinstance e cls then handler else Raise e
  end.

Definition is_ok {A} (r : result A) : bool :=
  match r with Ok _ => true | Raise _ => false end.

(** ** The builtin [int(str)] *)

Section Interpreter.

(** [sys.get_int_max_str_digits()]: 0 switches the check off (and is
    what interpreters before 3.11 behave like), 4300 is the default. *)
Variable max_str_digits : nat.

(** [Py_ISSPACE]: tab, line feed, vertical tab, form feed, carriage
    return and space. *)
Definition is_space (c : ascii) : bool :=
  let n := nat_of_ascii c in
  ((9 <=? n)%nat && (n <=? 13)%nat) || (n =? 32)%nat.

Definition digit_value (c : ascii) : option Z :=
  let n := nat_of_ascii c in
  if ((48 <=? n)%nat && (n <=? 57)%nat)%bool
  then Some (Z.of_nat n - 48) else None.

Definition is_underscore (c : ascii) : bool := (nat_of_ascii c =? 95)%nat.

Fixpoint skip_spaces (s : string) : string :=
  match s with
  | String c rest => if is_space c then skip_spaces rest else s
  | EmptyString => s
  end.

(** The scan of [long_from_string_base]: digits with single underscores
    between them.  Returns the value, the number of digit characters
    and the unread rest; [None] on a doubled or trailing underscore. *)
Fixpoint scan_digits (prev_underscore : bool) (acc : Z) (digits : nat)
    (s : string) : option (Z * nat * string) :=
  match s with
  | String c rest =>
      if is_underscore c then
        if prev_underscore then None
        else scan_digits true acc digits rest
      else
        match digit_value c with
        | Some d => scan_digits false (10 * acc + d) (S digits) rest
        | None => if prev_underscore then None else Some (acc, digits, s)
        end
  | EmptyString => if prev_underscore then None else Some (acc, digits, s)
  end.

Definition read_sign (s : string) : Z * string :=
  match s with
  | String "+" rest => (1, rest)
  | String "-" rest => (-1, rest)
  | _ => (1, s)
  end.

Definition starts_with_underscore (s : string) : bool :=
  match s with
  | String c _ => is_underscore c
  | EmptyString => false
  end.

(** [int(s)] in base 10: surrounding white space, an optional sign, at
    least one digit, nothing else; more digit characters than the
    interpreter's limit is a [ValueError] too. *)
Definition py_int (s : string) : result Z :=
  let (sign, body) := read_sign (skip_spaces s) in
  if starts_with_underscore body then Raise ValueError
  else
    match scan_digits false 0 0%nat body with
    | None => Raise ValueError
    | Some (value, digits, rest) =>
        if (digits =? 0)%nat then Raise ValueError
        else if ((640 <? digits)%nat && (0 <? max_str_digits)%nat
                 && (max_str_digits <? digits)%nat)%bool
        then Raise ValueError
        else
          match skip_spaces rest with
          | EmptyString => Ok (sign * value)
          | String _ _ => Raise ValueError
          end
    end.

(** Truth value of a [str]: only the empty string is false. *)
Definition str_truthy (s : string) : bool :=
  match s with EmptyString => false | String _ _ => true end.

(** ** Configuration ([Tools.Valves]) *)

Record Valves : Type := mkValves {
  user_agent : string;
  max_results : Z
}.

(** The [Field(80, ge=1, le=150)] constraint that pydantic checks when
    a [Valves] is built. *)
Definition valves_valid (v : Valves) : Prop :=
  1 <= max_results v <= 150.

Definition default_valves : Valves :=
  {| user_agent := "Mozilla/5.0 (RedditSearchToolkit/0.1.0)";
     max_results := 80 |}.

(** ** Limit and count resolution *)

(** Lines 145-156 of [search]. *)
Definition resolve_limit (v : Valves) (limit : string) : result Z :=
  let actual_limit := max_results v in
  try_except
    (if str_truthy limit && negb (String.eqb limit "-1") then
       parsed_limit ← py_int limit;
       if ((1 <=? parsed_limit)%Z && (parsed_limit <=? 150)%Z)%bool
       then Ok parsed_limit
       else Ok actual_limit
     else Ok actual_limit)
    ValueError
    (Ok actual_limit).

(** Lines 225-236 of [get_top_comments]. *)
Definition resolve_num_comments (num_comments : string) : result Z :=
  let actual_num_comments := 10 in
  try_except
    (if str_truthy num_comments then
       parsed_num_comments ← py_int num_comments;
       if (0 <? parsed_num_comments)%Z
       then Ok parsed_num_comments
       else Ok actual_num_comments
     else Ok actual_num_comments)
    ValueError
    (Ok actual_num_comments).

(** ** Operations on Python values *)

(** [str(v)] for floats, integers and containers, which the handlers
    never build themselves. *)
Variable str_other : pyval -> string.

(** What an f-string writes for [v]. *)
Definition py_str (v : pyval) : string :=
  match v with
  | PStr s => s
  | PNone => "None"
  | PBool true => "True"
  | PBool false => "False"
  | _ => str_other v
  end.

Fixpoint dict_lookup (entries : list (string * pyval)) (key : string)
  : option pyval :=
  match entries with
  | [] => None
  | (k, v) :: rest => if String.eqb k key then Some v else dict_lookup rest key
  end.

(** [obj.get(key, default)]: only a [dict] has the method. *)
Definition py_get (obj : pyval) (key : string) (default : pyval)
  : result pyval :=
  match obj with
  | PDict entries =>
      Ok (match dict_lookup entries key with Some v => v | None => default end)
  | _ => Raise AttributeError
  end.

Fixpoint chars (s : string) : list pyval :=
  match s with
  | EmptyString => []
  | String c rest => PStr (String c EmptyString) :: chars rest
  end.

(** The items a [for] loop visits: the elements of a list, the keys of a
    dict, the characters of a string; nothing else is iterable. *)
Definition py_iter (v : pyval) : result (list pyval) :=
  match v with
  | PList items => Ok items
  | PDict entries => Ok (map (fun kv => PStr (fst kv)) entries)
  | PStr s => Ok (chars s)
  | _ => Raise TypeError
  end.

(** [len(v)]. *)
Definition py_len (v : pyval) : result Z :=
  match v with
  | PList items => Ok (Z.of_nat (length items))
  | PDict entries => Ok (Z.of_nat (length entries))
  | PStr s => Ok (Z.of_nat (String.length s))
  | _ => Raise TypeError
  end.

(** [v[1]]: the second element of a list or string; a decoded JSON
    object has string keys only, so the integer key is missing. *)
Definition py_item1 (v : pyval) : result pyval :=
  match v with
  | PList items =>
      match items !! 1%nat with Some x => Ok x | None => Raise IndexError end
  | PStr s =>
      match chars s !! 1%nat with Some x => Ok x | None => Raise IndexError end
  | PDict _ => Raise KeyError
  | _ => Raise TypeError
  end.

(** [v == s] for a string literal [s]. *)
Definition py_eq_str (v : pyval) (s : string) : bool :=
  match v with
  | PStr s' => String.eqb s' s
  | _ => false
  end.

(** [s.rstrip("/")]. *)
Fixpoint rstrip_slash (s : string) : string :=
  match s with
  | EmptyString => EmptyString
  | String c rest =>
      match rstrip_slash rest with
      | EmptyString =>
          if Ascii.eqb c "/" then EmptyString else String c EmptyString
      | String c' rest' => String c (String c' rest')
      end
  end.

(** ** The host: status callback, event loop, network *)

(** What the host's callback hands back: a coroutine (with what running
    it to completion does), some other awaitable such as a future, or a
    plain value. *)
Inductive awaitable : Type :=
  | Coroutine (outcome : result unit)
  | OtherAwaitable.

Inductive returned : Type :=
  | NotAwaitable
  | Awaitable (a : awaitable).

(** [__event_emitter__]: called with the payload, it returns or throws. *)
Definition emitter : Type := pyval -> result returned.

Record request : Type := mkRequest {
  req_url : string;
  req_headers : list (string * string);
  req_params : list (string * pyval);
  req_timeout : Z
}.

(** What [response.json()] will find in the body. *)
Inductive body : Type :=
  | Malformed
  | Json (v : pyval).

Record response : Type := mkResponse {
  status_code : Z;
  content : body
}.

(** [requests.get]: a response, or a transport failure. *)
Definition network : Type := request -> result response.

(** The effects of a call, oldest first. *)
Record world : Type := mkWorld {
  events : list pyval;
  tasks : list awaitable;
  requests : list request
}.

Definition empty_world : world :=
  {| events := []; tasks := []; requests := [] |}.

(** State and exceptions: the world is kept when a call raises. *)
Definition M (A : Type) : Type := world -> world * result A.

#[global] Instance M_ret : MRet M := fun A a w => (w, Ok a).
#[global] Instance M_bind : MBind M :=
  fun A B f m w =>
    match m w with
    | (w', Ok a) => f a w'
    | (w', Raise e) => (w', Raise e)
    end.

Definition lift {A} (r : result A) : M A := fun w => (w, r).

(** [try: body except cls: handler] with effects. *)
Definition M_try_except {A} (body : M A) (cls : exc) (handler : M A) : M A :=
  fun w =>
    match body w with
    | (w', Ok a) => (w', Ok a)
    | (w', Raise e) =>
        if exc_isinstance e cls then handler w' else (w', Raise e)
    end.

Definition call_emitter (cb : emitter) (payload : pyval) : M returned :=
  fun w =>
    ({| events := (events w ++ [payload])%list;
        tasks := tasks w;
        requests := requests w |},
     cb payload).

(** [asyncio.create_task]: needs a running loop, and a coroutine. *)
Definition create_task (loop_running : bool) (a : awaitable) : M unit :=
  fun w =>
    if loop_running then
      match a with
      | Coroutine _ =>
          ({| events := events w;
              tasks := (tasks w ++ [a])%list;
              requests := requests w |},
           Ok tt)
      | OtherAwaitable => (w, Raise TypeError)
      end
    else (w, Raise RuntimeError).

(** [asyncio.run]: runs a coroutine to completion. *)
Definition asyncio_run (a : awaitable) : M unit :=
  match a with
  | Coroutine outcome => lift outcome
  | OtherAwaitable => lift (Raise ValueError)
  end.

Definition status_payload (description : string) (done hidden : bool)
  : pyval :=
  PDict [("type", PStr "status");
         ("data", PDict [("description", PStr description);
                         ("done", PBool done);
                         ("hidden", PBool hidden)])].

(** [Tools._emit_status]. *)
Definition _emit_status (loop_running : bool) (__event_emitter__ : option emitter)
    (description : string) (done hidden : bool) : M unit :=
  match __event_emitter__ with
  | Some cb =>
      let payload := status_payload description done hidden in
      returned_value ← call_emitter cb payload;
      match returned_value with
      | Awaitable a =>
          M_try_except (create_task loop_running a)
                       RuntimeError
                       (asyncio_run a)
      | NotAwaitable => mret tt
      end
  | None => mret tt
  end.

Definition requests_get (net : network) (url : string)
    (headers : list (string * string)) (params : list (string * pyval))
    (timeout : Z) : M response :=
  fun w =>
    let r := mkRequest url headers params timeout in
    ({| events := events w;
        tasks := tasks w;
        requests := (requests w ++ [r])%list |},
     net r).

(** [Response.raise_for_status]: client and server error codes raise. *)
Definition raise_for_status (r : response) : result unit :=
  if ((400 <=? status_code r)%Z && (status_code r <? 600)%Z)%bool
  then Raise HTTPError
  else Ok tt.

Definition response_json (r : response) : result pyval :=
  match content r with
  | Json v => Ok v
  | Malformed => Raise JSONDecodeError
  end.

(** ** [Tools.search] *)

Definition reddit_base : string := "https://www.reddit.com".

(** The dict literal of lines 180-187. *)
Definition post_record (post_data : pyval) : result pyval :=
  title ← py_get post_data "title" PNone;
  subreddit ← py_get post_data "subreddit" PNone;
  permalink ← py_get post_data "permalink" PNone;
  score ← py_get post_data "score" PNone;
  num_comments ← py_get post_data "num_comments" PNone;
  created_utc ← py_get post_data "created_utc" PNone;
  Ok (PDict [("title", title);
             ("subreddit", subreddit);
             ("url", PStr (reddit_base +:+ py_str permalink));
             ("score", score);
             ("num_comments", num_comments);
             ("created_utc", created_utc)]).

(** The loop of lines 177-190; [posts] is the list built so far. *)
Fixpoint search_loop (actual_limit : Z) (children : list pyval)
    (posts : list pyval) : result (list pyval) :=
  match children with
  | [] => Ok posts
  | child :: rest =>
      post_data ← py_get child "data" (PDict []);
      record ← post_record post_data;
      let posts := (posts ++ [record])%list in
      if (Z.of_nat (length posts) >=? actual_limit)%Z then Ok posts
      else search_loop actual_limit rest posts
  end.

Definition search_url : string := "https://www.reddit.com/search.json".

Definition search_params (query sort time_window : string) (actual_limit : Z)
  : list (string * pyval) :=
  [("q", PStr query);
   ("sort", PStr sort);
   ("t", PStr time_window);
   ("limit", PInt actual_limit);
   ("restrict_sr", PBool false);
   ("type", PStr "link")].

(** The GET of lines 160-172. *)
Definition search_request (valves : Valves) (query sort time_window : string)
    (actual_limit : Z) : request :=
  mkRequest search_url
            [("User-Agent", user_agent valves)]
            (search_params query sort time_window actual_limit)
            10.

(** The iterable of line 177. *)
Definition search_children (data : pyval) : result (list pyval) :=
  listing ← py_get data "data" (PDict []);
  children ← py_get listing "children" (PList []);
  py_iter children.

(** Lines 176-190. *)
Definition search_posts (actual_limit : Z) (data : pyval)
  : result (list pyval) :=
  children ← search_children data;
  search_loop actual_limit children [].

Definition search (valves : Valves) (net : network)
    (__event_emitter__ : option emitter)
    (query sort time_window limit : string) : M (list pyval) :=
  _emit_status true __event_emitter__
    ("Searching Reddit for ‘" +:+ query +:+ "’…") false false;;
  actual_limit ← lift (resolve_limit valves limit);
  let r := search_request valves query sort time_window actual_limit in
  response ← requests_get net (req_url r) (req_headers r) (req_params r)
               (req_timeout r);
  lift (raise_for_status response);;
  data ← lift (response_json response);
  posts ← lift (search_posts actual_limit data);
  _emit_status true __event_emitter__
    ("Retrieved " +:+ pretty (length posts) +:+ " posts.") true false;;
  mret posts.

(** ** [Tools.get_top_comments] *)

(** The dict literal of lines 261-265. *)
Definition comment_record (comment_data : pyval) : result pyval :=
  author ← py_get comment_data "author" PNone;
  body ← py_get comment_data "body" PNone;
  score ← py_get comment_data "score" PNone;
  Ok (PDict [("author", author); ("body", body); ("score", score)]).

(** The loop of lines 257-268. *)
Fixpoint comments_loop (actual_num_comments : Z) (children : list pyval)
    (comments : list pyval) : result (list pyval) :=
  match children with
  | [] => Ok comments
  | child :: rest =>
      kind ← py_get child "kind" PNone;
      if py_eq_str kind "t1" then
        comment_data ← py_get child "data" (PDict []);
        record ← comment_record comment_data;
        let comments := (comments ++ [record])%list in
        if (Z.of_nat (length comments) >=? actual_num_comments)%Z
        then Ok comments
        else comments_loop actual_num_comments rest comments
      else comments_loop actual_num_comments rest comments
  end.

(** The iterable of line 257. *)
Definition comment_children (payload : pyval) : result (list pyval) :=
  second ← py_item1 payload;
  listing ← py_get second "data" (PDict []);
  children ← py_get listing "children" (PList []);
  py_iter children.

(** Lines 255-268: the comments of a decoded payload. *)
Definition extract_comments (actual_num_comments : Z) (payload : pyval)
  : result (list pyval) :=
  n ← py_len payload;
  if (n >? 1)%Z then
    children ← comment_children payload;
    comments_loop actual_num_comments children []
  else Ok [].

Definition comments_params (actual_num_comments : Z)
  : list (string * pyval) :=
  [("limit", PInt actual_num_comments); ("depth", PInt 1)].

(** The GET of lines 240-245. *)
Definition comments_request (valves : Valves) (post_url : string)
    (actual_num_comments : Z) : request :=
  mkRequest (rstrip_slash post_url +:+ ".json")
            [("User-Agent", user_agent valves)]
            (comments_params actual_num_comments)
            10.

Definition get_top_comments (valves : Valves) (net : network)
    (__event_emitter__ : option emitter)
    (post_url num_comments : string) : M (list pyval) :=
  _emit_status true __event_emitter__ "Fetching comments…" false false;;
  actual_num_comments ← lift (resolve_num_comments num_comments);
  let r := comments_request valves post_url actual_num_comments in
  response ← requests_get net (req_url r) (req_headers r) (req_params r)
               (req_timeout r);
  lift (raise_for_status response);;
  decoded ← M_try_except
              (payload ← lift (response_json response); mret (Some payload))
              JSONDecodeError
              (_emit_status true __event_emitter__
                 ("Could not fetch comments for " +:+ post_url
                  +:+ " (invalid format).") true true;;
               mret None);
  match decoded with
  | None => mret []
  | Some payload =>
      comments ← lift (extract_comments actual_num_comments payload);
      _emit_status true __event_emitter__
        ("Returned " +:+ pretty (length comments) +:+ " comments.")
        true false;;
      mret comments
  end.

End Interpreter.

(** ** Reference definitions, written from the specification *)

(** The limit policy in the specification's words: the parsed integer
    when it lies in [1,150], the configured default otherwise. *)
Definition limit_by_spec (max_str_digits : nat) (v : Valves)
    (limit : string) : Z :=
  match py_int max_str_digits limit with
  | Ok n => if decide (1 <= n <= 150) then n else max_results v
  | Raise _ => max_results v
  end.

(** The count policy in the specification's words: the parsed integer
    when it is positive, 10 otherwise. *)
Definition count_by_spec (max_str_digits : nat) (num_comments : string) : Z :=
  match py_int max_str_digits num_comments with
  | Ok n => if decide (0 < n) then n else 10
  | Raise _ => 10
  end.

(** The record that one upstream child yields in [search]. *)
Definition child_post (str_other : pyval -> string) (child : pyval)
  : result pyval :=
  post_data ← py_get child "data" (PDict []);
  post_record str_other post_data.

(** The record that one upstream entry yields in [get_top_comments]. *)
Definition child_comment (child : pyval) : result pyval :=
  comment_data ← py_get child "data" (PDict []);
  comment_record comment_data.

(** The entry's kind tag is ["t1"]. *)
Definition is_t1 (child : pyval) : bool :=
  match py_get child "kind" PNone with
  | Ok kind => py_eq_str kind "t1"
  | Raise _ => false
  end.

(** [e.get(key)] on the entries of a dict. *)
Definition field (entries : list (string * pyval)) (key : string) : pyval :=
  match dict_lookup entries key with Some v => v | None => PNone end.

(** A callback that neither throws nor hands back anything but a plain
    value or a coroutine. *)
Definition emitter_ok (em : option emitter) : Prop :=
  forall cb payload, em = Some cb ->
    cb payload = Ok NotAwaitable \/
    exists outcome, cb payload = Ok (Awaitable (Coroutine outcome)).

(** The payloads that a call of [_emit_status] hands to the host. *)
Definition emitted (em : option emitter) (description : string)
    (done hidden : bool) : list pyval :=
  match em with
  | Some _ => [status_payload description done hidden]
  | None => []
  end.

(** How many children the loop still visits when it holds [held]
    records: the room left under the limit, and never less than one,
    as the bound is tested after the append. *)
Definition room (limit : Z) (held : nat) : nat :=
  Nat.max 1 (Z.to_nat (limit - Z.of_nat held)).

(** The world after request [r] went out. *)
Definition sent (r : request) (w : world) : world :=
  {| events := events w; tasks := tasks w;
     requests := (requests w ++ [r])%list |}.

(** A child of the search listing that [search] can turn into a record:
    a dict whose ["data"] is missing or a dict. *)
Definition child_readable (child : pyval) : Prop :=
  exists entries,
    child = PDict entries /\
    (dict_lookup entries "data" = None \/
     exists post_data, dict_lookup entries "data" = Some (PDict post_data)).

(** ** Example hosts and payloads *)

Definition example_str_other : pyval -> string := fun _ => "".

Definition quiet_emitter : emitter := fun _ => Ok NotAwaitable.

Definition async_emitter : emitter :=
  fun _ => Ok (Awaitable (Coroutine (Ok tt))).

Definition throwing_emitter : emitter :=
  fun _ => Raise (EmitterError "boom").

(** A host that answers every request with the same response. *)
Definition constant_net (status : Z) (b : body) : network :=
  fun _ => Ok (mkResponse status b).

(** A host that answers the search endpoint with one body and every
    other URL with another. *)
Definition routing_net (search_body comments_body : body) : network :=
  fun r =>
    if String.eqb (req_url r) search_url
    then Ok (mkResponse 200 search_body)
    else Ok (mkResponse 200 comments_body).

(** A host on which one side cannot be reached: the search endpoint when
    [search_down], every other URL otherwise; the side that can be
    reached answers 200 with [b]. *)
Definition failing_net (search_down : bool) (b : body) : network :=
  fun r =>
    if Bool.eqb (String.eqb (req_url r) search_url) search_down
    then Raise RequestException
    else Ok (mkResponse 200 b).

(** The host [net] with every answer given the status [status]. *)
Definition with_status (status : Z) (net : network) : network :=
  fun r =>
    match net r with
    | Ok resp => Ok (mkResponse status (content resp))
    | Raise e => Raise e
    end.

Definition example_child (score : Z) : pyval :=
  PDict [("kind", PStr "t3");
         ("data", PDict [("title", PStr "cat");
                         ("subreddit", PStr "cats");
                         ("permalink", PStr "/r/cats/comments/1/cat/");
                         ("score", PInt score)])].

(** A search response with eight children. *)
Definition example_search_data : pyval :=
  PDict [("data",
          PDict [("children",
                  PList (map example_child [1; 2; 3; 4; 5; 6; 7; 8]))])].

(** The record that [search] builds from [example_child]. *)
Definition example_post (score : Z) : pyval :=
  PDict [("title", PStr "cat");
         ("subreddit", PStr "cats");
         ("url", PStr "https://www.reddit.com/r/cats/comments/1/cat/");
         ("score", PInt score);
         ("num_comments", PNone);
         ("created_utc", PNone)].

Definition example_entry (kind author : string) : pyval :=
  PDict [("kind", PStr kind);
         ("data", PDict [("author", PStr author); ("body", PStr "hi")])].

(** The record that [get_top_comments] builds from [example_entry]. *)
Definition example_comment (author : string) : pyval :=
  PDict [("author", PStr author); ("body", PStr "hi"); ("score", PNone)].

(** A comment response: the post, then three comments and a stub. *)
Definition example_comment_payload : pyval :=
  PList [PDict [("kind", PStr "Listing")];
         PDict [("data",
                 PDict [("children",
                         PList [example_entry "t1" "ann";
                                example_entry "more" "";
                                example_entry "t1" "bob";
                                example_entry "t1" "cy"])])]].

(** ** Vocabulary for the further properties *)

(** The last character of [s] is a slash. *)
Fixpoint ends_with_slash (s : string) : bool :=
  match s with
  | EmptyString => false
  | String c rest =>
      match rest with
      | EmptyString => Ascii.eqb c "/"
      | String _ _ => ends_with_slash rest
      end
  end.

(** A run of [k] slashes. *)
Fixpoint slashes (k : nat) : string :=
  match k with
  | O => EmptyString
  | S k => String "/" (slashes k)
  end.

(** A value that has no [.get]: anything but a dict. *)
Definition not_a_dict (v : pyval) : Prop :=
  forall entries, v <> PDict entries.

(** A value that a [for] loop cannot visit. *)
Definition not_iterable (v : pyval) : Prop :=
  match v with
  | PList _ | PDict _ | PStr _ => False
  | _ => True
  end.

(** The start status of each handler. *)
Definition search_start (query : string) : string :=
  "Searching Reddit for ‘" +:+ query +:+ "’…".

Definition comments_start : string := "Fetching comments…".

(** The completion status of each handler. *)
Definition search_done (posts : list pyval) : string :=
  "Retrieved " +:+ pretty (length posts) +:+ " posts.".

Definition comments_done (comments : list pyval) : string :=
  "Returned " +:+ pretty (length comments) +:+ " comments.".

(** A callback that accepts every status but throws on one marked done. *)
Definition done_failing_emitter : emitter :=
  fun payload =>
    match payload with
    | PDict [_; (_, PDict [_; (_, PBool true); _])] =>
        Raise (EmitterError "late")
    | _ => Ok NotAwaitable
    end.

(** A callback that hands back a future. *)
Definition future_emitter : emitter :=
  fun _ => Ok (Awaitable OtherAwaitable).

(** * Properties *)

(** ** The error monad *)

Lemma result_bind_ok {A B} (m : result A) (f : A -> result B) (b : B) :
  m ≫= f = Ok b <-> exists a, m = Ok a /\ f a = Ok b.
Proof.
  split.
  - destruct m as [a|e]; [intros H; exists a; auto | discriminate].
  - intros (a & -> & H). exact H.
Qed.

Lemma mapM_ok_Forall2 {A B} (f : A -> result B) (l : list A) (k : list B) :
  mapM f l = Ok k <-> Forall2 (fun x y => f x = Ok y) l k.
Proof.
  revert k. induction l as [|x l IH]; intros k; simpl.
  - split.
    + intros [= <-]. constructor.
    + intros H. inversion H. reflexivity.
  - split.
    + intros H. apply result_bind_ok in H as (y & Hy & H).
      apply result_bind_ok in H as (k' & Hk' & [= <-]).
      constructor; [exact Hy | by apply IH].
    + intros H. inversion H as [|? y ? k' Hy Hk']; subst.
      apply IH in Hk'. cbn. rewrite Hy. cbn. rewrite Hk'. reflexivity.
Qed.

Lemma mapM_cons {A B} (f : A -> result B) (x : A) (l : list A) :
  mapM f (x :: l) = (y ← f x; ys ← mapM f l; Ok (y :: ys)).
Proof. reflexivity. Qed.

Lemma mapM_ok_length {A B} (f : A -> result B) (l : list A) (k : list B) :
  mapM f l = Ok k -> length k = length l.
Proof.
  intros H. apply mapM_ok_Forall2 in H. symmetry. by eapply Forall2_length.
Qed.

(** ** [int] and the two resolution policies *)

Lemma py_int_raises msd s e : py_int msd s = Raise e -> e = ValueError.
Proof.
  unfold py_int. destruct (read_sign _) as [sign rest].
  destruct (starts_with_underscore rest); [congruence|].
  destruct (scan_digits _ _ _ _) as [[[value digits] tail]|]; [|congruence].
  destruct (digits =? 0)%nat; [congruence|].
  destruct (_ && _ && _)%bool; [congruence|].
  destruct (skip_spaces tail); congruence.
Qed.

Lemma py_int_sentinel msd : py_int msd "-1" = Ok (-1).
Proof. reflexivity. Qed.

Lemma py_int_empty msd : py_int msd "" = Raise ValueError.
Proof. reflexivity. Qed.

Lemma resolve_limit_spec msd v limit :
  resolve_limit msd v limit = Ok (limit_by_spec msd v limit).
Proof.
  unfold resolve_limit, limit_by_spec.
  destruct limit as [|c rest]; [reflexivity|].
  cbn [str_truthy andb].
  destruct (String.eqb_spec (String c rest) "-1") as [->|_];
    [reflexivity|].
  cbn [negb].
  destruct (py_int msd (String c rest)) as [n|e] eqn:Hint; cbn.
  - case_decide as Hn.
    + replace (1 <=? n) with true by lia.
      replace (n <=? 150) with true by lia. reflexivity.
    + destruct (Z.leb_spec 1 n), (Z.leb_spec n 150); first [lia | reflexivity].
  - by rewrite (py_int_raises _ _ _ Hint).
Qed.

Lemma resolve_num_comments_spec msd num_comments :
  resolve_num_comments msd num_comments = Ok (count_by_spec msd num_comments).
Proof.
  unfold resolve_num_comments, count_by_spec.
  destruct num_comments as [|c rest]; [reflexivity|].
  cbn [str_truthy].
  destruct (py_int msd (String c rest)) as [n|e] eqn:Hint; cbn.
  - case_decide as Hn.
    + replace (0 <? n) with true by lia. reflexivity.
    + replace (0 <? n) with false by lia. reflexivity.
  - by rewrite (py_int_raises _ _ _ Hint).
Qed.

Lemma limit_by_spec_range msd v limit :
  valves_valid v -> 1 <= limit_by_spec msd v limit <= 150.
Proof.
  unfold valves_valid, limit_by_spec. intros Hv.
  destruct (py_int msd limit); [case_decide|]; lia.
Qed.

Lemma count_by_spec_positive msd num_comments :
  1 <= count_by_spec msd num_comments.
Proof.
  unfold count_by_spec.
  destruct (py_int msd num_comments); [case_decide|]; lia.
Qed.

(** ** The two loops *)

Lemma room_full limit held :
  Z.of_nat (S held) >= limit -> room limit held = 1%nat.
Proof. unfold room. lia. Qed.

Lemma room_step limit held :
  ~ Z.of_nat (S held) >= limit -> room limit held = S (room limit (S held)).
Proof. unfold room. lia. Qed.

Lemma room_start limit : 1 <= limit -> room limit 0 = Z.to_nat limit.
Proof. unfold room. lia. Qed.

Lemma search_loop_cons so limit child rest posts :
  search_loop so limit (child :: rest) posts =
  (record ← child_post so child;
   if Z.of_nat (length (posts ++ [record])) >=? limit
   then Ok (posts ++ [record])%list
   else search_loop so limit rest (posts ++ [record])).
Proof.
  cbn [search_loop]. unfold child_post.
  by destruct (py_get child "data" (PDict [])).
Qed.

Lemma comments_loop_cons count child rest comments :
  comments_loop count (child :: rest) comments =
  (if is_t1 child then
     record ← child_comment child;
     if Z.of_nat (length (comments ++ [record])) >=? count
     then Ok (comments ++ [record])%list
     else comments_loop count rest (comments ++ [record])
   else
     _ ← py_get child "kind" PNone;
     comments_loop count rest comments).
Proof.
  cbn [comments_loop]. unfold is_t1, child_comment.
  destruct (py_get child "kind" PNone) as [kind|e]; [|reflexivity].
  cbn [mbind result_bind].
  destruct (py_eq_str kind "t1"); [|reflexivity].
  by destruct (py_get child "data" (PDict [])).
Qed.

Lemma room_positive limit held : exists k, room limit held = S k.
Proof.
  unfold room.
  exists (Nat.max 1 (Z.to_nat (limit - Z.of_nat held)) - 1)%nat. lia.
Qed.

(** [search_loop] maps [child_post] over the first [room] children. *)
Lemma search_loop_closed so limit children posts :
  search_loop so limit children posts =
  (records ← mapM (child_post so) (take (room limit (length posts)) children);
   Ok (posts ++ records)%list).
Proof.
  revert posts. induction children as [|child rest IH]; intros posts.
  - cbn. rewrite take_nil. cbn. by rewrite app_nil_r.
  - rewrite search_loop_cons.
    destruct (room_positive limit (length posts)) as [k Hk].
    rewrite Hk. cbn [take]. rewrite mapM_cons.
    destruct (child_post so child) as [record|e]; [|reflexivity].
    cbn [mbind result_bind].
    destruct (Z.geb_spec (Z.of_nat (length (posts ++ [record]))) limit)
      as [Hfull|Hmore]; rewrite length_app in *; cbn [length] in *.
    + rewrite room_full in Hk by lia. injection Hk as <-.
      rewrite take_0. reflexivity.
    + rewrite room_step in Hk by lia. injection Hk as <-.
      rewrite IH, length_app. cbn [length].
      replace (length posts + 1)%nat with (S (length posts)) by lia.
      destruct (mapM _ _) as [ys|e]; cbn; [|reflexivity].
      by rewrite <- app_assoc.
Qed.

Lemma search_loop_start so limit children :
  search_loop so limit children [] =
  mapM (child_post so) (take (room limit 0) children).
Proof.
  rewrite search_loop_closed. cbn [length].
  by destruct (mapM _ _).
Qed.

(** [comments_loop] only builds records from the first [room] entries
    whose kind is ["t1"]. *)
Lemma comments_loop_closed count children comments result :
  comments_loop count children comments = Ok result ->
  exists records,
    result = (comments ++ records)%list /\
    mapM child_comment
         (take (room count (length comments)) (List.filter is_t1 children))
    = Ok records.
Proof.
  revert comments. induction children as [|child rest IH]; intros comments.
  - cbn. intros [= <-]. exists []. rewrite app_nil_r. by destruct (room _ _).
  - rewrite comments_loop_cons. cbn [List.filter].
    destruct (is_t1 child).
    + destruct (room_positive count (length comments)) as [k Hk].
      rewrite Hk. cbn [take]. rewrite mapM_cons.
      destruct (child_comment child) as [record|e]; [|discriminate].
      cbn [mbind result_bind].
      destruct (Z.geb_spec (Z.of_nat (length (comments ++ [record]))) count)
        as [Hfull|Hmore]; rewrite length_app in *; cbn [length] in *.
      * intros [= <-]. exists [record]. split; [reflexivity|].
        rewrite room_full in Hk by lia. injection Hk as <-.
        by rewrite take_0.
      * intros H. apply IH in H as (records & -> & Hrec).
        rewrite room_step in Hk by lia. injection Hk as <-.
        rewrite length_app in Hrec. cbn [length] in Hrec.
        replace (length comments + 1)%nat with (S (length comments)) in Hrec
          by lia.
        exists (record :: records). rewrite Hrec. split; [|reflexivity].
        by rewrite <- app_assoc.
    + destruct (py_get child "kind" PNone); [apply IH | discriminate].
Qed.

Lemma filter_is_t1_kind child children :
  In child (List.filter is_t1 children) ->
  In child children /\ py_get child "kind" PNone = Ok (PStr "t1").
Proof.
  intros H. apply filter_In in H as [Hin Ht1]. split; [exact Hin|].
  unfold is_t1 in Ht1.
  destruct (py_get child "kind" PNone) as [kind|e]; [|discriminate].
  destruct kind; try discriminate. cbn in Ht1.
  by apply String.eqb_eq in Ht1 as ->.
Qed.

(** ** The status helper *)

(** Whatever the callback does, a call of the helper hands it exactly
    one payload and sends no request. *)
Lemma emit_status_frame lr em description done hidden w w' r :
  _emit_status lr em description done hidden w = (w', r) ->
  events w' = (events w ++ emitted em description done hidden)%list /\
  requests w' = requests w.
Proof.
  destruct em as [cb|]; cbn.
  - unfold mbind, M_bind, call_emitter.
    destruct (cb _) as [[|a]|e]; cbn.
    + intros [= <- <-]. auto.
    + unfold M_try_except, create_task, asyncio_run, lift.
      destruct lr, a as [outcome|]; cbn; intros [= <- <-]; auto.
    + intros [= <- <-]. auto.
  - intros [= <- <-]. by rewrite app_nil_r.
Qed.

(** With a running loop, a well-behaved callback never makes the helper
    raise. *)
Lemma emit_status_ok em description done hidden w :
  emitter_ok em ->
  exists w', _emit_status true em description done hidden w = (w', Ok tt).
Proof.
  intros Hem. destruct em as [cb|]; cbn; [|eauto].
  unfold mbind, M_bind, call_emitter.
  destruct (Hem cb (status_payload description done hidden) eq_refl)
    as [->|[outcome ->]]; cbn; eauto.
Qed.

(** Steps over the next status emission of a handler whose callback is
    known to be well behaved. *)
Ltac emit_ok_step Hem w1 :=
  match goal with
  | |- context [_emit_status true ?em ?d ?dn ?h ?w] =>
      let Hstep := fresh "Hemit" in
      destruct (emit_status_ok em d dn h w Hem) as [w1 Hstep];
      rewrite Hstep
  end.

(** ** The handlers, step by step *)

Lemma search_unfold msd so v net em query sort time_window limit w :
  search msd so v net em query sort time_window limit w =
  let actual_limit := limit_by_spec msd v limit in
  let r := search_request v query sort time_window actual_limit in
  match _emit_status true em
          ("Searching Reddit for ‘" +:+ query +:+ "’…") false false w with
  | (w1, Raise e) => (w1, Raise e)
  | (w1, Ok _) =>
      match response ← net r;
            raise_for_status response;;
            data ← response_json response;
            search_posts so actual_limit data with
      | Raise e => (sent r w1, Raise e)
      | Ok posts =>
          match _emit_status true em
                  ("Retrieved " +:+ pretty (length posts) +:+ " posts.")
                  true false (sent r w1) with
          | (w2, Raise e) => (w2, Raise e)
          | (w2, Ok _) => (w2, Ok posts)
          end
      end
  end.
Proof.
  unfold search. cbn zeta. unfold mbind at 1. unfold M_bind at 1.
  destruct (_emit_status _ _ _ _ _ w) as [w1 [[]|e]]; [|reflexivity].
  rewrite resolve_limit_spec.
  unfold mbind, M_bind, lift, requests_get, mret, M_ret, sent. cbn.
  destruct (net _) as [response|e]; [|reflexivity]. cbn.
  destruct (raise_for_status response) as [[]|e]; [|reflexivity]. cbn.
  destruct (response_json response) as [data|e]; [|reflexivity]. cbn.
  destruct (search_posts _ _ data) as [posts|e]; [|reflexivity].
  by destruct (_emit_status _ _ _ _ _ _) as [w2 [[]|e]].
Qed.

Lemma get_top_comments_unfold msd v net em post_url num_comments w :
  get_top_comments msd v net em post_url num_comments w =
  let actual_num_comments := count_by_spec msd num_comments in
  let r := comments_request v post_url actual_num_comments in
  match _emit_status true em "Fetching comments…" false false w with
  | (w1, Raise e) => (w1, Raise e)
  | (w1, Ok _) =>
      match response ← net r; raise_for_status response;; Ok response with
      | Raise e => (sent r w1, Raise e)
      | Ok response =>
          match content response with
          | Malformed =>
              match _emit_status true em
                      ("Could not fetch comments for " +:+ post_url
                       +:+ " (invalid format).") true true (sent r w1) with
              | (w2, Raise e) => (w2, Raise e)
              | (w2, Ok _) => (w2, Ok [])
              end
          | Json payload =>
              match extract_comments actual_num_comments payload with
              | Raise e => (sent r w1, Raise e)
              | Ok comments =>
                  match _emit_status true em
                          ("Returned " +:+ pretty (length comments)
                           +:+ " comments.") true false (sent r w1) with
                  | (w2, Raise e) => (w2, Raise e)
                  | (w2, Ok _) => (w2, Ok comments)
                  end
              end
          end
      end
  end.
Proof.
  unfold get_top_comments. cbn zeta. unfold mbind at 1. unfold M_bind at 1.
  destruct (_emit_status _ _ _ _ _ w) as [w1 [[]|e]]; [|reflexivity].
  rewrite resolve_num_comments_spec.
  unfold mbind, M_bind, M_try_except, lift, requests_get, mret, M_ret, sent,
    response_json.
  cbn.
  destruct (net _) as [response|e]; [|reflexivity]. cbn.
  destruct (raise_for_status response) as [[]|e]; [|reflexivity]. cbn.
  destruct (content response) as [|payload]; cbn.
  - by destruct (_emit_status _ _ _ _ _ _) as [w2 [[]|e]].
  - destruct (extract_comments _ payload) as [comments|e]; [|reflexivity].
    by destruct (_emit_status _ _ _ _ _ _) as [w2 [[]|e]].
Qed.

Lemma response_json_content resp v :
  response_json resp = Ok v <-> content resp = Json v.
Proof.
  unfold response_json. destruct (content resp); split; congruence.
Qed.

(** What a returned post list says about the call. *)
Lemma search_ok_inv msd so v net em query sort time_window limit w w' posts :
  search msd so v net em query sort time_window limit w = (w', Ok posts) ->
  let actual_limit := limit_by_spec msd v limit in
  let r := search_request v query sort time_window actual_limit in
  exists resp data children,
    net r = Ok resp /\
    raise_for_status resp = Ok tt /\
    content resp = Json data /\
    search_children data = Ok children /\
    mapM (child_post so) (take (room actual_limit 0) children) = Ok posts /\
    requests w' = (requests w ++ [r])%list.
Proof.
  rewrite search_unfold. cbn zeta.
  destruct (_emit_status _ _ _ _ _ w) as [w1 [[]|e]] eqn:Hstart;
    [|discriminate].
  destruct (net _) as [resp|e] eqn:Hnet; [|discriminate]. cbn.
  destruct (raise_for_status resp) as [[]|e] eqn:Hstatus; [|discriminate]. cbn.
  destruct (response_json resp) as [data|e] eqn:Hjson; [|discriminate]. cbn.
  destruct (search_posts _ _ data) as [posts'|e] eqn:Hposts; [|discriminate].
  destruct (_emit_status _ _ _ _ _ (sent _ w1)) as [w2 [[]|e]] eqn:Hdone;
    [|discriminate].
  intros [= <- <-].
  unfold search_posts in Hposts.
  apply result_bind_ok in Hposts as (children & Hchildren & Hloop).
  rewrite search_loop_start in Hloop.
  apply emit_status_frame in Hstart as [_ Hreq1].
  apply emit_status_frame in Hdone as [_ Hreq2].
  exists resp, data, children.
  repeat split; try assumption.
  - by apply response_json_content.
  - rewrite Hreq2. cbn. by rewrite Hreq1.
Qed.

(** A call that meets nothing unexpected returns the posts. *)
Lemma search_run msd so v net em query sort time_window limit w resp data
    posts :
  emitter_ok em ->
  net (search_request v query sort time_window (limit_by_spec msd v limit))
  = Ok resp ->
  raise_for_status resp = Ok tt ->
  content resp = Json data ->
  search_posts so (limit_by_spec msd v limit) data = Ok posts ->
  exists w',
    search msd so v net em query sort time_window limit w = (w', Ok posts).
Proof.
  intros Hem Hnet Hstatus Hjson Hposts.
  rewrite search_unfold. cbn zeta.
  emit_ok_step Hem w1.
  rewrite Hnet. cbn. rewrite Hstatus. cbn.
  apply response_json_content in Hjson. rewrite Hjson. cbn.
  rewrite Hposts.
  emit_ok_step Hem w2. eauto.
Qed.

(** What a returned comment list says about the call. *)
Lemma comments_ok_inv msd v net em post_url num_comments w w' comments :
  get_top_comments msd v net em post_url num_comments w = (w', Ok comments) ->
  let count := count_by_spec msd num_comments in
  let r := comments_request v post_url count in
  exists resp,
    net r = Ok resp /\
    raise_for_status resp = Ok tt /\
    requests w' = (requests w ++ [r])%list /\
    ((content resp = Malformed /\ comments = []) \/
     (exists payload,
        content resp = Json payload /\
        extract_comments count payload = Ok comments)).
Proof.
  rewrite get_top_comments_unfold. cbn zeta.
  destruct (_emit_status _ _ _ _ _ w) as [w1 [[]|e]] eqn:Hstart;
    [|discriminate].
  destruct (net _) as [resp|e] eqn:Hnet; [|discriminate]. cbn.
  destruct (raise_for_status resp) as [[]|e] eqn:Hstatus; [|discriminate]. cbn.
  apply emit_status_frame in Hstart as [_ Hreq1].
  destruct (content resp) as [|payload] eqn:Hcontent.
  - destruct (_emit_status _ _ _ _ _ (sent _ w1)) as [w2 [[]|e]] eqn:Hdone;
      [|discriminate].
    intros [= <- <-].
    apply emit_status_frame in Hdone as [_ Hreq2].
    exists resp. repeat split; try assumption; [|by left].
    rewrite Hreq2. cbn. by rewrite Hreq1.
  - destruct (extract_comments _ payload) as [comments'|e] eqn:Hextract;
      [|discriminate].
    destruct (_emit_status _ _ _ _ _ (sent _ w1)) as [w2 [[]|e]] eqn:Hdone;
      [|discriminate].
    intros [= <- <-].
    apply emit_status_frame in Hdone as [_ Hreq2].
    exists resp. repeat split; try assumption; [|right; eauto].
    rewrite Hreq2. cbn. by rewrite Hreq1.
Qed.

(** A call that meets nothing unexpected returns the comments. *)
Lemma comments_run msd v net em post_url num_comments w resp payload
    comments :
  emitter_ok em ->
  net (comments_request v post_url (count_by_spec msd num_comments))
  = Ok resp ->
  raise_for_status resp = Ok tt ->
  content resp = Json payload ->
  extract_comments (count_by_spec msd num_comments) payload = Ok comments ->
  exists w',
    get_top_comments msd v net em post_url num_comments w
    = (w', Ok comments).
Proof.
  intros Hem Hnet Hstatus Hjson Hextract.
  rewrite get_top_comments_unfold. cbn zeta.
  emit_ok_step Hem w1.
  rewrite Hnet. cbn. rewrite Hstatus. cbn. rewrite Hjson, Hextract.
  emit_ok_step Hem w2. eauto.
Qed.

(** The comments of a payload come from its entries of kind ["t1"]. *)
Lemma extract_comments_inv count payload comments :
  extract_comments count payload = Ok comments ->
  comments = [] \/
  exists children,
    comment_children payload = Ok children /\
    mapM child_comment (take (room count 0) (List.filter is_t1 children))
    = Ok comments.
Proof.
  unfold extract_comments. intros H.
  apply result_bind_ok in H as (n & _ & H).
  destruct (n >? 1); [|left; congruence].
  apply result_bind_ok in H as (children & Hchildren & Hloop).
  apply comments_loop_closed in Hloop as (records & -> & Hrecords).
  right. exists children. split; [exact Hchildren|exact Hrecords].
Qed.

(** * The claims *)

(** C1.  Limit resolution of [search]: a [limit] string that [int]
    parses to an integer in [1,150] gives that integer as the effective
    limit; every other string (the sentinel ["-1"], the empty string, a
    string that does not parse, a string that parses to an integer
    outside [1,150]) gives the configured [max_results], so an
    out-of-range value is dropped and not clamped.  The effective limit
    is the [limit] parameter of the request that the call sends, and the
    returned posts are built from no more children than it allows. *)
Theorem C1_search_effective_limit msd so v net em query sort time_window
    limit :
  (forall n, py_int msd limit = Ok n -> 1 <= n <= 150 ->
     resolve_limit msd v limit = Ok n) /\
  ((forall n, py_int msd limit = Ok n -> ~ 1 <= n <= 150) ->
     resolve_limit msd v limit = Ok (max_results v)) /\
  resolve_limit msd v "-1" = Ok (max_results v) /\
  resolve_limit msd v "" = Ok (max_results v) /\
  resolve_limit msd v limit = Ok (limit_by_spec msd v limit) /\
  (forall w w' posts,
     search msd so v net em query sort time_window limit w = (w', Ok posts) ->
     exists actual_limit resp data children,
       resolve_limit msd v limit = Ok actual_limit /\
       requests w' =
         (requests w
          ++ [search_request v query sort time_window actual_limit])%list /\
       dict_lookup
         (req_params (search_request v query sort time_window actual_limit))
         "limit" = Some (PInt actual_limit) /\
       net (search_request v query sort time_window actual_limit) = Ok resp /\
       content resp = Json data /\
       search_children data = Ok children /\
       mapM (child_post so) (take (room actual_limit 0) children) = Ok posts).
Proof.
  split; [|split; [|split; [|split; [|split]]]].
  - intros n Hn Hrange. rewrite resolve_limit_spec. unfold limit_by_spec.
    rewrite Hn. by rewrite decide_True.
  - intros Hout. rewrite resolve_limit_spec. unfold limit_by_spec.
    destruct (py_int msd limit) as [n|e] eqn:Hn; [|reflexivity].
    rewrite decide_False; [reflexivity | by apply Hout].
  - reflexivity.
  - reflexivity.
  - apply resolve_limit_spec.
  - intros w w' posts Hrun.
    apply search_ok_inv in Hrun
      as (resp & data & children & Hnet & _ & Hjson & Hch & Hposts & Hreq).
    exists (limit_by_spec msd v limit), resp, data, children.
    repeat split; try assumption. apply resolve_limit_spec.
Qed.

Lemma C1_search_effective_limit_witness :
  resolve_limit 4300 default_valves "5" = Ok 5 /\
  resolve_limit 4300 default_valves "151" = Ok 80 /\
  resolve_limit 4300 default_valves "abc" = Ok 80.
Proof.
  split; [|split].
  - apply (proj1 (C1_search_effective_limit 4300 (fun _ => "") default_valves
                    (fun _ => Raise RequestException) None
                    "cats" "relevance" "all" "5") 5);
      [reflexivity | lia].
  - apply (proj1 (proj2 (C1_search_effective_limit 4300 (fun _ => "")
                           default_valves (fun _ => Raise RequestException)
                           None "cats" "relevance" "all" "151"))).
    intros n Hn. vm_compute in Hn. injection Hn as <-. lia.
  - apply (proj1 (proj2 (C1_search_effective_limit 4300 (fun _ => "")
                           default_valves (fun _ => Raise RequestException)
                           None "cats" "relevance" "all" "abc"))).
    intros n Hn. vm_compute in Hn. discriminate.
Defined.

(** C2.  Count resolution of [get_top_comments]: a [num_comments]
    string that [int] parses to a positive integer gives that integer as
    the effective count, however large; every other string (empty, not
    parsing, parsing to zero or to a negative integer) gives 10.  The
    effective count is the [limit] parameter of the request sent. *)
Theorem C2_comments_effective_count msd v net em post_url num_comments :
  (forall n, py_int msd num_comments = Ok n -> 0 < n ->
     resolve_num_comments msd num_comments = Ok n) /\
  ((forall n, py_int msd num_comments = Ok n -> ~ 0 < n) ->
     resolve_num_comments msd num_comments = Ok 10) /\
  resolve_num_comments msd "" = Ok 10 /\
  resolve_num_comments msd num_comments
  = Ok (count_by_spec msd num_comments) /\
  (forall w w' comments,
     get_top_comments msd v net em post_url num_comments w
     = (w', Ok comments) ->
     exists actual_num_comments,
       resolve_num_comments msd num_comments = Ok actual_num_comments /\
       requests w' =
         (requests w
          ++ [comments_request v post_url actual_num_comments])%list /\
       dict_lookup
         (req_params (comments_request v post_url actual_num_comments))
         "limit" = Some (PInt actual_num_comments)).
Proof.
  split; [|split; [|split; [|split]]].
  - intros n Hn Hpos. rewrite resolve_num_comments_spec. unfold count_by_spec.
    rewrite Hn. by rewrite decide_True.
  - intros Hout. rewrite resolve_num_comments_spec. unfold count_by_spec.
    destruct (py_int msd num_comments) as [n|e] eqn:Hn; [|reflexivity].
    rewrite decide_False; [reflexivity | by apply Hout].
  - reflexivity.
  - apply resolve_num_comments_spec.
  - intros w w' comments Hrun.
    apply comments_ok_inv in Hrun as (resp & _ & _ & Hreq & _).
    exists (count_by_spec msd num_comments).
    repeat split; try assumption. apply resolve_num_comments_spec.
Qed.

Lemma C2_comments_effective_count_witness :
  resolve_num_comments 4300 "100000" = Ok 100000 /\
  resolve_num_comments 4300 "0" = Ok 10 /\
  resolve_num_comments 4300 "-3" = Ok 10.
Proof.
  split; [|split].
  - apply (proj1 (C2_comments_effective_count 4300 default_valves
                    (fun _ => Raise RequestException) None
                    "https://x/comments/1/" "100000") 100000);
      [reflexivity | lia].
  - apply (proj1 (proj2 (C2_comments_effective_count 4300 default_valves
                           (fun _ => Raise RequestException) None
                           "https://x/comments/1/" "0"))).
    intros n Hn. vm_compute in Hn. injection Hn as <-. lia.
  - apply (proj1 (proj2 (C2_comments_effective_count 4300 default_valves
                           (fun _ => Raise RequestException) None
                           "https://x/comments/1/" "-3"))).
    intros n Hn. vm_compute in Hn. injection Hn as <-. lia.
Defined.

(** C3.  Result lengths.  With a configuration that passed validation,
    the list that [search] returns is no longer than the effective limit,
    and the list that [get_top_comments] returns is no longer than the
    effective count.  When the search response holds more children than
    the effective limit, the returned posts are exactly the records of
    the first effective-limit children, in upstream order. *)
Theorem C3_result_lengths msd so v net em query sort time_window limit
    post_url num_comments w :
  valves_valid v ->
  (forall w' posts,
     search msd so v net em query sort time_window limit w = (w', Ok posts) ->
     exists actual_limit,
       resolve_limit msd v limit = Ok actual_limit /\
       Z.of_nat (length posts) <= actual_limit /\
       (forall resp data children,
          net (search_request v query sort time_window actual_limit)
          = Ok resp ->
          content resp = Json data ->
          search_children data = Ok children ->
          actual_limit < Z.of_nat (length children) ->
          Z.of_nat (length posts) = actual_limit /\
          Forall2 (fun child post => child_post so child = Ok post)
                  (take (Z.to_nat actual_limit) children) posts)) /\
  (forall w' comments,
     get_top_comments msd v net em post_url num_comments w
     = (w', Ok comments) ->
     exists actual_num_comments,
       resolve_num_comments msd num_comments = Ok actual_num_comments /\
       Z.of_nat (length comments) <= actual_num_comments).
Proof.
  intros Hv. split.
  - intros w' posts Hrun.
    pose proof (limit_by_spec_range msd v limit Hv) as Hrange.
    apply search_ok_inv in Hrun
      as (resp & data & children & Hnet & _ & Hjson & Hch & Hposts & _).
    rewrite room_start in Hposts by lia.
    exists (limit_by_spec msd v limit).
    split; [apply resolve_limit_spec|].
    pose proof (mapM_ok_length _ _ _ Hposts) as Hlen.
    rewrite length_take in Hlen.
    split; [lia|].
    intros resp' data' children' Hnet' Hjson' Hch' Hmore.
    rewrite Hnet in Hnet'. injection Hnet' as <-.
    rewrite Hjson in Hjson'. injection Hjson' as <-.
    rewrite Hch in Hch'. injection Hch' as <-.
    split; [lia|]. by apply mapM_ok_Forall2.
  - intros w' comments Hrun.
    pose proof (count_by_spec_positive msd num_comments) as Hpos.
    apply comments_ok_inv in Hrun as (resp & _ & _ & _ & Hcases).
    exists (count_by_spec msd num_comments).
    split; [apply resolve_num_comments_spec|].
    destruct Hcases as [[_ ->]|(payload & _ & Hextract)]; [cbn; lia|].
    apply extract_comments_inv in Hextract as [->|(children & _ & Hrec)];
      [cbn; lia|].
    apply mapM_ok_length in Hrec. rewrite length_take in Hrec.
    rewrite room_start in Hrec by lia. lia.
Qed.

(** The scenario of the specification: limit ["5"], eight children. *)
Lemma C3_result_lengths_witness :
  valves_valid default_valves /\
  exists w' posts,
    search 4300 example_str_other default_valves
           (constant_net 200 (Json example_search_data)) (Some quiet_emitter)
           "cats" "relevance" "all" "5" empty_world = (w', Ok posts) /\
    Z.of_nat (length posts) = 5 /\
    Forall2 (fun child post => child_post example_str_other child = Ok post)
            (map example_child [1; 2; 3; 4; 5]) posts.
Proof.
  assert (Hv : valves_valid default_valves) by (unfold valves_valid; cbn; lia).
  split; [exact Hv|].
  destruct (search 4300 example_str_other default_valves
              (constant_net 200 (Json example_search_data))
              (Some quiet_emitter) "cats" "relevance" "all" "5" empty_world)
    as [w' [posts|e]] eqn:Hrun; [|vm_compute in Hrun; discriminate].
  exists w', posts. split; [reflexivity|].
  destruct (proj1 (C3_result_lengths 4300 example_str_other default_valves
                     (constant_net 200 (Json example_search_data))
                     (Some quiet_emitter) "cats" "relevance" "all" "5"
                     "https://x/comments/1/" "10" empty_world Hv)
                  w' posts Hrun) as (actual_limit & Hlimit & _ & Hexact).
  vm_compute in Hlimit. injection Hlimit as <-.
  apply (Hexact (mkResponse 200 (Json example_search_data))
                example_search_data
                (map example_child [1; 2; 3; 4; 5; 6; 7; 8]));
    [reflexivity | reflexivity | reflexivity | cbn; lia].
Defined.

(** C4, as stated, fails: a callback that throws when it is invoked makes
    [_emit_status] raise, and the handler that called it fails with the
    same exception before any request is sent. *)
Lemma C4_counterexample :
  _emit_status true (Some throwing_emitter) "Fetching comments…" false false
               empty_world
  = ({| events := [status_payload "Fetching comments…" false false];
        tasks := [];
        requests := [] |},
     Raise (EmitterError "boom")) /\
  get_top_comments 4300 default_valves
                   (constant_net 200 (Json example_comment_payload))
                   (Some throwing_emitter) "https://x/comments/1/" "10"
                   empty_world
  = ({| events := [status_payload "Fetching comments…" false false];
        tasks := [];
        requests := [] |},
     Raise (EmitterError "boom")).
Proof. split; reflexivity. Qed.

(** C4, amended.  [_emit_status] completes without raising when no
    callback is registered, when the callback returns a value that is
    not awaitable, and when it returns a coroutine: with a running loop
    the coroutine is scheduled as a task, with none it is run to
    completion and the helper ends as the coroutine does.  An exception
    thrown by the callback when it is invoked propagates to the
    caller. *)
Theorem C4_emit_status_outcome lr em description done hidden w :
  (em = None ->
   _emit_status lr em description done hidden w = (w, Ok tt)) /\
  (forall cb,
     em = Some cb ->
     cb (status_payload description done hidden) = Ok NotAwaitable ->
     snd (_emit_status lr em description done hidden w) = Ok tt) /\
  (forall cb outcome,
     em = Some cb ->
     cb (status_payload description done hidden)
     = Ok (Awaitable (Coroutine outcome)) ->
     let run := _emit_status lr em description done hidden w in
     if lr
     then snd run = Ok tt /\
          tasks (fst run) = (tasks w ++ [Coroutine outcome])%list
     else snd run = outcome /\ tasks (fst run) = tasks w) /\
  (forall cb e,
     em = Some cb ->
     cb (status_payload description done hidden) = Raise e ->
     snd (_emit_status lr em description done hidden w) = Raise e).
Proof.
  split; [|split; [|split]].
  - intros ->. reflexivity.
  - intros cb -> Hcb. cbn. unfold mbind, M_bind, call_emitter.
    by rewrite Hcb.
  - intros cb outcome -> Hcb. cbn. unfold mbind, M_bind, call_emitter.
    rewrite Hcb. by destruct lr.
  - intros cb e -> Hcb. cbn. unfold mbind, M_bind, call_emitter.
    by rewrite Hcb.
Qed.

Lemma C4_emit_status_outcome_witness :
  snd (_emit_status true (Some quiet_emitter) "Fetching comments…"
                    false false empty_world) = Ok tt /\
  snd (_emit_status true (Some async_emitter) "Fetching comments…"
                    false false empty_world) = Ok tt /\
  snd (_emit_status true (Some throwing_emitter) "Fetching comments…"
                    false false empty_world) = Raise (EmitterError "boom").
Proof.
  split; [|split].
  - apply (proj1 (proj2 (C4_emit_status_outcome
                           true (Some quiet_emitter) "Fetching comments…"
                           false false empty_world)) quiet_emitter);
      reflexivity.
  - apply (proj1 (proj2 (proj2 (C4_emit_status_outcome
                                  true (Some async_emitter)
                                  "Fetching comments…" false false
                                  empty_world)))
                 async_emitter (Ok tt) eq_refl eq_refl).
  - apply (proj2 (proj2 (proj2 (C4_emit_status_outcome
                                  true (Some throwing_emitter)
                                  "Fetching comments…" false false
                                  empty_world)))
                 throwing_emitter (EmitterError "boom"));
      reflexivity.
Defined.

(** C5.  A body that is not JSON.  After a 2xx status,
    [get_top_comments] does not raise on a body that does not decode: it
    returns the empty list, and the host callback has then received the
    start status followed by a status marked done and hidden (nothing
    when no callback is registered).  [search] has no such recovery: on
    such a body it raises the decode error.  What is said of one
    handler asks nothing of the answer to the other. *)
Theorem C5_malformed_body msd so v net em post_url num_comments
    query sort time_window limit w :
  emitter_ok em ->
  (forall resp,
     net (comments_request v post_url (count_by_spec msd num_comments))
     = Ok resp ->
     200 <= status_code resp < 300 ->
     content resp = Malformed ->
     exists w',
       get_top_comments msd v net em post_url num_comments w
       = (w', Ok []) /\
       events w' =
         (events w
          ++ emitted em "Fetching comments…" false false
          ++ emitted em ("Could not fetch comments for " +:+ post_url
                         +:+ " (invalid format).") true true)%list) /\
  (forall resp,
     net (search_request v query sort time_window
            (limit_by_spec msd v limit)) = Ok resp ->
     200 <= status_code resp < 300 ->
     content resp = Malformed ->
     exists w',
       search msd so v net em query sort time_window limit w
       = (w', Raise JSONDecodeError)).
Proof.
  intros Hem. split; intros resp Hnet Hstatus Hbody.
  - rewrite get_top_comments_unfold. cbn zeta.
    destruct (emit_status_ok em "Fetching comments…" false false w Hem)
      as [w1 Hstart].
    rewrite Hstart, Hnet. cbn. unfold raise_for_status.
    replace (400 <=? status_code resp) with false by lia.
    cbn. rewrite Hbody.
    destruct (emit_status_ok em
                ("Could not fetch comments for " +:+ post_url
                 +:+ " (invalid format).") true true
                (sent (comments_request v post_url
                         (count_by_spec msd num_comments)) w1) Hem)
      as [w2 Hdone].
    rewrite Hdone. exists w2. split; [reflexivity|].
    apply emit_status_frame in Hstart as [Hev1 _].
    apply emit_status_frame in Hdone as [Hev2 _].
    rewrite Hev2. cbn. rewrite Hev1. by rewrite <- app_assoc.
  - rewrite search_unfold. cbn zeta.
    destruct (emit_status_ok em
                ("Searching Reddit for ‘" +:+ query +:+ "’…")
                false false w Hem) as [w1 ->].
    rewrite Hnet. cbn. unfold raise_for_status.
    replace (400 <=? status_code resp) with false by lia.
    cbn. unfold response_json. rewrite Hbody. cbn. eauto.
Qed.

(** A host whose comment body does not decode while its search answers
    well, and one whose search body does not decode. *)
Lemma C5_malformed_body_witness :
  (exists w',
     get_top_comments 4300 default_valves
                      (routing_net (Json example_search_data) Malformed)
                      (Some quiet_emitter) "https://x/comments/1/" "10"
                      empty_world = (w', Ok []) /\
     events w' =
       [status_payload "Fetching comments…" false false;
        status_payload
          "Could not fetch comments for https://x/comments/1/ (invalid format)."
          true true]) /\
  (exists w',
     search 4300 example_str_other default_valves
            (routing_net Malformed (Json example_comment_payload))
            (Some quiet_emitter) "cats" "relevance" "all" "5" empty_world
     = (w', Raise JSONDecodeError)).
Proof.
  assert (Hquiet : emitter_ok (Some quiet_emitter))
    by (intros cb payload [= <-]; left; reflexivity).
  split.
  - apply (proj1 (C5_malformed_body 4300 example_str_other default_valves
                    (routing_net (Json example_search_data) Malformed)
                    (Some quiet_emitter) "https://x/comments/1/" "10"
                    "cats" "relevance" "all" "5" empty_world Hquiet)
                 (mkResponse 200 Malformed));
      [reflexivity | cbn; lia | reflexivity].
  - apply (proj2 (C5_malformed_body 4300 example_str_other default_valves
                    (routing_net Malformed (Json example_comment_payload))
                    (Some quiet_emitter) "https://x/comments/1/" "10"
                    "cats" "relevance" "all" "5" empty_world Hquiet)
                 (mkResponse 200 Malformed));
      [reflexivity | cbn; lia | reflexivity].
Defined.

(** C6, as stated, fails: [raise_for_status] only raises for the codes
    400 to 599.  Status 304 is not 2xx, yet with its empty body, which
    does not decode, [get_top_comments] returns the empty list; status
    300 is not 2xx either, and with the body [{}] [search] returns the
    empty list. *)
Lemma C6_counterexample :
  ~ (200 <= 304 < 300) /\
  snd (get_top_comments 4300 default_valves (constant_net 304 Malformed)
                        None "https://x/comments/1/" "10" empty_world)
  = Ok [] /\
  ~ (200 <= 300 < 300) /\
  snd (search 4300 example_str_other default_valves
              (constant_net 300 (Json (PDict []))) None
              "cats" "relevance" "all" "-1" empty_world)
  = Ok [].
Proof. split; [lia | split; [reflexivity | split; [lia | reflexivity]]]. Qed.

(** C6, amended.  For every upstream response whose status is a client
    or server error code (400 to 599), [search] and [get_top_comments]
    each raise: the failure reaches the caller, it is the HTTP error
    when the status callback is well behaved, no list is returned, and
    no second request is sent.  A response with any other status is not
    rejected by the status check: the handler goes on with its body as
    it does after a 2xx status.  What is said of one handler asks
    nothing of the answer to the other. *)
Theorem C6_http_error_propagates msd so v net em query sort time_window
    limit post_url num_comments w :
  (forall resp,
     net (search_request v query sort time_window
            (limit_by_spec msd v limit)) = Ok resp ->
     400 <= status_code resp < 600 ->
     exists w' e,
       search msd so v net em query sort time_window limit w
       = (w', Raise e) /\
       (emitter_ok em -> e = HTTPError) /\
       (length (requests w') <= S (length (requests w)))%nat) /\
  (forall resp,
     net (comments_request v post_url (count_by_spec msd num_comments))
     = Ok resp ->
     400 <= status_code resp < 600 ->
     exists w' e,
       get_top_comments msd v net em post_url num_comments w
       = (w', Raise e) /\
       (emitter_ok em -> e = HTTPError) /\
       (length (requests w') <= S (length (requests w)))%nat) /\
  (forall resp,
     raise_for_status resp = Ok tt <-> ~ 400 <= status_code resp < 600) /\
  (forall resp data posts,
     emitter_ok em ->
     net (search_request v query sort time_window
            (limit_by_spec msd v limit)) = Ok resp ->
     ~ 400 <= status_code resp < 600 ->
     content resp = Json data ->
     search_posts so (limit_by_spec msd v limit) data = Ok posts ->
     exists w',
       search msd so v net em query sort time_window limit w
       = (w', Ok posts)) /\
  (forall resp,
     emitter_ok em ->
     net (comments_request v post_url (count_by_spec msd num_comments))
     = Ok resp ->
     ~ 400 <= status_code resp < 600 ->
     (content resp = Malformed ->
      exists w',
        get_top_comments msd v net em post_url num_comments w
        = (w', Ok [])) /\
     (forall payload comments,
        content resp = Json payload ->
        extract_comments (count_by_spec msd num_comments) payload
        = Ok comments ->
        exists w',
          get_top_comments msd v net em post_url num_comments w
          = (w', Ok comments))).
Proof.
  assert (Hpass : forall resp,
             raise_for_status resp = Ok tt <-> ~ 400 <= status_code resp < 600).
  { intros resp. unfold raise_for_status.
    destruct (Z.leb_spec 400 (status_code resp)),
             (Z.ltb_spec (status_code resp) 600); cbn;
      split; first [lia | discriminate | reflexivity]. }
  split; [|split; [|split; [|split]]].
  - intros resp Hnet Hstatus.
    rewrite search_unfold. cbn zeta.
    destruct (_emit_status true em
                ("Searching Reddit for ‘" +:+ query +:+ "’…")
                false false w) as [w1 [[]|e]] eqn:Hstart.
    + rewrite Hnet. cbn. unfold raise_for_status.
      replace (400 <=? status_code resp) with true by lia.
      replace (status_code resp <? 600) with true by lia.
      cbn. eexists _, _. split; [reflexivity|]. split; [reflexivity|].
      apply emit_status_frame in Hstart as [_ Hreq].
      cbn. rewrite length_app, Hreq. cbn. lia.
    + eexists _, _. split; [reflexivity|]. split.
      * intros Hem.
        destruct (emit_status_ok em
                    ("Searching Reddit for ‘" +:+ query +:+ "’…")
                    false false w Hem) as [w2 Hok].
        congruence.
      * apply emit_status_frame in Hstart as [_ ->]. lia.
  - intros resp Hnet Hstatus.
    rewrite get_top_comments_unfold. cbn zeta.
    destruct (_emit_status true em "Fetching comments…" false false w)
      as [w1 [[]|e]] eqn:Hstart.
    + rewrite Hnet. cbn. unfold raise_for_status.
      replace (400 <=? status_code resp) with true by lia.
      replace (status_code resp <? 600) with true by lia.
      cbn. eexists _, _. split; [reflexivity|]. split; [reflexivity|].
      apply emit_status_frame in Hstart as [_ Hreq].
      cbn. rewrite length_app, Hreq. cbn. lia.
    + eexists _, _. split; [reflexivity|]. split.
      * intros Hem.
        destruct (emit_status_ok em "Fetching comments…" false false w Hem)
          as [w2 Hok].
        congruence.
      * apply emit_status_frame in Hstart as [_ ->]. lia.
  - exact Hpass.
  - intros resp data posts Hem Hnet Hstatus Hjson Hposts.
    eapply search_run; try eassumption. by apply Hpass.
  - intros resp Hem Hnet Hstatus. apply Hpass in Hstatus. split.
    + intros Hbody. rewrite get_top_comments_unfold. cbn zeta.
      emit_ok_step Hem w1. rewrite Hnet. cbn. rewrite Hstatus. cbn.
      rewrite Hbody. emit_ok_step Hem w2. eauto.
    + intros payload comments Hjson Hextract.
      eapply comments_run; eassumption.
Qed.

(** A host that rejects the search with 429 and cannot be reached
    otherwise, one that rejects the comment request with 503 and whose
    search endpoint cannot be reached, and a search answered with
    status 300. *)
Lemma C6_http_error_propagates_witness :
  (exists w' e,
     search 4300 example_str_other default_valves
            (with_status 429 (failing_net false (Json example_search_data))) None
            "cats" "relevance" "all" "5" empty_world = (w', Raise e) /\
     (emitter_ok None -> e = HTTPError) /\
     (length (requests w') <= 1)%nat) /\
  (exists w' e,
     get_top_comments 4300 default_valves
            (with_status 503 (failing_net true (Json example_comment_payload))) None
            "https://x/comments/1/" "10" empty_world
     = (w', Raise e) /\
     (emitter_ok None -> e = HTTPError) /\
     (length (requests w') <= 1)%nat) /\
  (exists w',
     search 4300 example_str_other default_valves
            (constant_net 300 (Json example_search_data)) None
            "cats" "relevance" "all" "5" empty_world
     = (w', Ok (map example_post [1; 2; 3; 4; 5]))).
Proof.
  assert (Hnone : emitter_ok None) by (intros cb payload; discriminate).
  split; [|split].
  - apply (proj1 (C6_http_error_propagates
                    4300 example_str_other default_valves
                    (with_status 429 (failing_net false (Json example_search_data))) None
                    "cats" "relevance" "all" "5" "https://x/comments/1/"
                    "10" empty_world)
                 (mkResponse 429 (Json example_search_data)));
      [reflexivity | cbn; lia].
  - apply (proj1 (proj2 (C6_http_error_propagates
                    4300 example_str_other default_valves
                    (with_status 503 (failing_net true (Json example_comment_payload))) None
                    "cats" "relevance" "all" "5" "https://x/comments/1/"
                    "10" empty_world))
                 (mkResponse 503 (Json example_comment_payload)));
      [reflexivity | cbn; lia].
  - apply (proj1 (proj2 (proj2 (proj2 (C6_http_error_propagates
                    4300 example_str_other default_valves
                    (constant_net 300 (Json example_search_data)) None
                    "cats" "relevance" "all" "5" "https://x/comments/1/"
                    "10" empty_world))))
                 (mkResponse 300 (Json example_search_data))
                 example_search_data (map example_post [1; 2; 3; 4; 5])
                 Hnone);
      [reflexivity | cbn; lia | reflexivity | reflexivity].
Defined.

(** ** Records *)

Lemma child_post_inv so child post :
  child_post so child = Ok post ->
  exists entries,
    py_get child "data" (PDict []) = Ok (PDict entries) /\
    post = PDict [("title", field entries "title");
                  ("subreddit", field entries "subreddit");
                  ("url", PStr (reddit_base
                                +:+ py_str so (field entries "permalink")));
                  ("score", field entries "score");
                  ("num_comments", field entries "num_comments");
                  ("created_utc", field entries "created_utc")].
Proof.
  unfold child_post. intros H.
  apply result_bind_ok in H as (post_data & Hdata & Hrecord).
  destruct post_data as [| | | | | |entries]; try discriminate.
  exists entries. split; [exact Hdata|].
  cbn in Hrecord. injection Hrecord as <-. reflexivity.
Qed.

Lemma child_comment_inv child comment :
  child_comment child = Ok comment ->
  exists entries,
    py_get child "data" (PDict []) = Ok (PDict entries) /\
    comment = PDict [("author", field entries "author");
                     ("body", field entries "body");
                     ("score", field entries "score")].
Proof.
  unfold child_comment. intros H.
  apply result_bind_ok in H as (comment_data & Hdata & Hrecord).
  destruct comment_data as [| | | | | |entries]; try discriminate.
  exists entries. split; [exact Hdata|].
  cbn in Hrecord. injection Hrecord as <-. reflexivity.
Qed.

Lemma Forall2_In_r {A B} (R : A -> B -> Prop) (l : list A) (k : list B) y :
  Forall2 R l k -> In y k -> exists x, In x l /\ R x y.
Proof.
  induction 1 as [|x y' l k HR _ IH]; cbn; [tauto|].
  intros [->|Hin]; [eauto|].
  destruct (IH Hin) as (x' & Hx' & HR'). eauto.
Qed.

Lemma In_take {A} (x : A) (n : nat) (l : list A) : In x (take n l) -> In x l.
Proof.
  revert l. induction n as [|n IH]; intros [|y l]; cbn; try tauto.
  intros [->|Hin]; [by left | right; by apply IH].
Qed.

(** C7.  Every post that [search] returns is a dict with exactly the
    keys [title], [subreddit], [url], [score], [num_comments] and
    [created_utc], in that order, built from the ["data"] of one of the
    upstream children: five values are what [.get] finds there ([None]
    when the key is missing), and [url] is the text
    ["https://www.reddit.com"] followed by the upstream [permalink]. *)
Theorem C7_post_record_shape msd so v net em query sort time_window limit
    w w' posts post :
  search msd so v net em query sort time_window limit w = (w', Ok posts) ->
  In post posts ->
  exists resp data children child entries,
    net (search_request v query sort time_window (limit_by_spec msd v limit))
    = Ok resp /\
    content resp = Json data /\
    search_children data = Ok children /\
    In child children /\
    py_get child "data" (PDict []) = Ok (PDict entries) /\
    post = PDict [("title", field entries "title");
                  ("subreddit", field entries "subreddit");
                  ("url", PStr ("https://www.reddit.com"
                                +:+ py_str so (field entries "permalink")));
                  ("score", field entries "score");
                  ("num_comments", field entries "num_comments");
                  ("created_utc", field entries "created_utc")] /\
    (forall permalink,
       dict_lookup entries "permalink" = Some (PStr permalink) ->
       py_get post "url" PNone
       = Ok (PStr ("https://www.reddit.com" +:+ permalink))).
Proof.
  intros Hrun Hin.
  apply search_ok_inv in Hrun
    as (resp & data & children & Hnet & _ & Hjson & Hch & Hposts & _).
  apply mapM_ok_Forall2 in Hposts.
  destruct (Forall2_In_r _ _ _ _ Hposts Hin) as (child & Hchild & Hpost).
  apply In_take in Hchild.
  apply child_post_inv in Hpost as (entries & Hdata & ->).
  exists resp, data, children, child, entries.
  repeat split; try assumption.
  intros permalink Hlink. cbn. unfold field. by rewrite Hlink.
Qed.

Lemma C7_post_record_shape_witness :
  exists child entries,
    In child (map example_child [1; 2; 3; 4; 5; 6; 7; 8]) /\
    py_get child "data" (PDict []) = Ok (PDict entries) /\
    example_post 2
    = PDict [("title", field entries "title");
             ("subreddit", field entries "subreddit");
             ("url", PStr ("https://www.reddit.com"
                           +:+ py_str example_str_other
                                      (field entries "permalink")));
             ("score", field entries "score");
             ("num_comments", field entries "num_comments");
             ("created_utc", field entries "created_utc")].
Proof.
  destruct (C7_post_record_shape 4300 example_str_other default_valves
              (constant_net 200 (Json example_search_data))
              (Some quiet_emitter) "cats" "relevance" "all" "5" empty_world
              (fst (search 4300 example_str_other default_valves
                      (constant_net 200 (Json example_search_data))
                      (Some quiet_emitter) "cats" "relevance" "all" "5"
                      empty_world))
              (map example_post [1; 2; 3; 4; 5])
              (example_post 2))
    as (resp & data & children & child & entries
        & Hnet & Hjson & Hch & Hin & Hdata & Hpost & _).
  - vm_compute. reflexivity.
  - cbn. tauto.
  - injection Hnet as <-. injection Hjson as <-. injection Hch as <-.
    exists child, entries. split; [exact Hin|]. split; [exact Hdata|].
    exact Hpost.
Defined.

Lemma is_t1_spec child :
  is_t1 child = true <-> py_get child "kind" PNone = Ok (PStr "t1").
Proof.
  unfold is_t1. split.
  - destruct (py_get child "kind" PNone) as [kind|e]; [|discriminate].
    destruct kind; try discriminate. cbn.
    by intros ->%String.eqb_eq.
  - intros ->. reflexivity.
Qed.

Lemma filter_is_t1_nil children :
  (forall child, In child children ->
     py_get child "kind" PNone <> Ok (PStr "t1")) ->
  List.filter is_t1 children = [].
Proof.
  induction children as [|child rest IH]; intros Hnone; [reflexivity|].
  cbn. destruct (is_t1 child) eqn:Hkind.
  - apply is_t1_spec in Hkind. destruct (Hnone child); [by left | exact Hkind].
  - apply IH. intros c Hc. apply Hnone. by right.
Qed.

(** C8.  The comments that [get_top_comments] returns are the records of
    the first entries of kind ["t1"] of the upstream list, in order:
    every returned record comes from an entry whose kind tag is ["t1"],
    and entries of any other kind, ["more"] stubs among them, contribute
    nothing. *)
Theorem C8_only_t1_entries msd v net em post_url num_comments w w' comments :
  get_top_comments msd v net em post_url num_comments w = (w', Ok comments) ->
  comments = [] \/
  exists resp payload children,
    net (comments_request v post_url (count_by_spec msd num_comments))
    = Ok resp /\
    content resp = Json payload /\
    comment_children payload = Ok children /\
    Forall2 (fun child comment => child_comment child = Ok comment)
            (take (Z.to_nat (count_by_spec msd num_comments))
                  (List.filter is_t1 children))
            comments /\
    (forall comment,
       In comment comments ->
       exists child,
         In child children /\
         py_get child "kind" PNone = Ok (PStr "t1") /\
         child_comment child = Ok comment) /\
    ((forall child, In child children ->
        py_get child "kind" PNone <> Ok (PStr "t1")) ->
     comments = []).
Proof.
  intros Hrun.
  pose proof (count_by_spec_positive msd num_comments) as Hpos.
  apply comments_ok_inv in Hrun as (resp & Hnet & _ & _ & Hcases).
  destruct Hcases as [[_ ->]|(payload & Hjson & Hextract)]; [by left|].
  apply extract_comments_inv in Hextract as [->|(children & Hch & Hrec)];
    [by left|].
  right. exists resp, payload, children.
  rewrite room_start in Hrec by lia.
  apply mapM_ok_Forall2 in Hrec.
  repeat split; try assumption.
  - intros comment Hin.
    destruct (Forall2_In_r _ _ _ _ Hrec Hin) as (child & Hchild & Hcomment).
    apply In_take, filter_is_t1_kind in Hchild as [Hchild Hkind].
    eauto.
  - intros Hnone. rewrite filter_is_t1_nil, take_nil in Hrec by exact Hnone.
    by inversion Hrec.
Qed.

Lemma C8_only_t1_entries_witness :
  Forall2 (fun child comment => child_comment child = Ok comment)
          [example_entry "t1" "ann"; example_entry "t1" "bob"]
          [example_comment "ann"; example_comment "bob"].
Proof.
  destruct (C8_only_t1_entries 4300 default_valves
              (constant_net 200 (Json example_comment_payload))
              (Some quiet_emitter) "https://x/comments/1/" "2" empty_world
              (fst (get_top_comments 4300 default_valves
                      (constant_net 200 (Json example_comment_payload))
                      (Some quiet_emitter) "https://x/comments/1/" "2"
                      empty_world))
              [example_comment "ann"; example_comment "bob"])
    as [Hnil|(resp & payload & children & Hnet & Hjson & Hch & Hrec & _)].
  - vm_compute. reflexivity.
  - discriminate Hnil.
  - injection Hnet as <-. injection Hjson as <-. injection Hch as <-.
    exact Hrec.
Defined.

Lemma extract_comments_short count payload n :
  py_len payload = Ok n -> n < 2 -> extract_comments count payload = Ok [].
Proof.
  intros Hlen Hn. unfold extract_comments. rewrite Hlen. cbn.
  by replace (n >? 1) with false by lia.
Qed.

(** C9.  When the decoded payload of the comment endpoint has fewer than
    two elements, [get_top_comments] returns the empty list and does not
    raise. *)
Theorem C9_short_payload msd v net em post_url num_comments w resp payload
    n :
  emitter_ok em ->
  net (comments_request v post_url (count_by_spec msd num_comments))
  = Ok resp ->
  raise_for_status resp = Ok tt ->
  content resp = Json payload ->
  py_len payload = Ok n ->
  n < 2 ->
  exists w',
    get_top_comments msd v net em post_url num_comments w = (w', Ok []).
Proof.
  intros Hem Hnet Hstatus Hjson Hlen Hn.
  eapply comments_run; try eassumption.
  by eapply extract_comments_short.
Qed.

(** The scenario of the specification: a single-element array. *)
Lemma C9_short_payload_witness :
  exists w',
    get_top_comments 4300 default_valves
      (constant_net 200 (Json (PList [PDict [("kind", PStr "Listing")]])))
      (Some quiet_emitter) "https://x/comments/1/" "10" empty_world
    = (w', Ok []).
Proof.
  apply (C9_short_payload 4300 default_valves
           (constant_net 200 (Json (PList [PDict [("kind", PStr "Listing")]])))
           (Some quiet_emitter) "https://x/comments/1/" "10" empty_world
           (mkResponse 200 (Json (PList [PDict [("kind", PStr "Listing")]])))
           (PList [PDict [("kind", PStr "Listing")]]) 1).
  - intros cb payload [= <-]. left. reflexivity.
  - reflexivity.
  - reflexivity.
  - reflexivity.
  - reflexivity.
  - lia.
Defined.

(** ** Incomplete responses *)

Lemma child_readable_post so child :
  child_readable child -> exists post, child_post so child = Ok post.
Proof.
  intros (entries & -> & [Hnone|(post_data & Hsome)]);
    unfold child_post; cbn; rewrite ?Hnone, ?Hsome; cbn; eauto.
Qed.

Lemma mapM_child_post_total so children :
  Forall child_readable children ->
  exists posts, mapM (child_post so) children = Ok posts.
Proof.
  induction 1 as [|child rest Hchild _ [posts IH]]; [by exists []|].
  destruct (child_readable_post so child Hchild) as [post Hpost].
  exists (post :: posts). rewrite mapM_cons, Hpost. cbn. by rewrite IH.
Qed.

Lemma child_readable_comment child :
  child_readable child -> exists comment, child_comment child = Ok comment.
Proof.
  intros (entries & -> & [Hnone|(comment_data & Hsome)]);
    unfold child_comment; cbn; rewrite ?Hnone, ?Hsome; cbn; eauto.
Qed.

Lemma comments_loop_total count children comments :
  Forall child_readable children ->
  exists result, comments_loop count children comments = Ok result.
Proof.
  intros Hreadable. revert comments.
  induction Hreadable as [|child rest Hchild _ IH]; intros comments;
    [by exists comments|].
  rewrite comments_loop_cons. destruct (is_t1 child).
  - destruct (child_readable_comment child Hchild) as [record ->]. cbn.
    destruct (_ >=? _); [eauto | apply IH].
  - destruct Hchild as (entries & -> & _). cbn. apply IH.
Qed.

(** C10, as stated, fails for a child without ["data"]: the list is
    neither empty nor shorter, the child yields a record of its own
    whose fields are all [None]. *)
Lemma C10_counterexample :
  snd (search 4300 example_str_other default_valves
         (constant_net 200
            (Json (PDict [("data",
                           PDict [("children",
                                   PList [PDict [("kind", PStr "t3")]])])])))
         None "cats" "relevance" "all" "5" empty_world)
  = Ok [PDict [("title", PNone);
               ("subreddit", PNone);
               ("url", PStr "https://www.reddit.comNone");
               ("score", PNone);
               ("num_comments", PNone);
               ("created_utc", PNone)]].
Proof. reflexivity. Qed.

(** C10, amended.  With a well-behaved status callback, both handlers
    tolerate a decoded response that lacks keys.  [search] returns the
    empty list when the response object has no ["data"] or its listing
    has no ["children"]; when every child is a dict whose ["data"] is a
    dict or missing, it returns one record per visited child, and a
    child without ["data"] gives the record whose fields are all [None]
    (its [url] is the base URL followed by the text [None]).
    [get_top_comments] returns the empty list when the second element
    of the payload has no ["data"] or its listing has no ["children"];
    when every entry is a dict whose ["data"] is a dict or missing, it
    returns one record per visited entry of kind ["t1"], all [None] for
    an entry without ["data"].  None of these cases raises.  What is
    said of one handler asks nothing of the answer to the other. *)
Theorem C10_defaulted_lookups msd so v net em query sort time_window limit
    post_url num_comments w :
  emitter_ok em ->
  (forall resp entries,
     net (search_request v query sort time_window
            (limit_by_spec msd v limit)) = Ok resp ->
     raise_for_status resp = Ok tt ->
     content resp = Json (PDict entries) ->
     (dict_lookup entries "data" = None ->
      exists w',
        search msd so v net em query sort time_window limit w
        = (w', Ok [])) /\
     (forall listing,
        dict_lookup entries "data" = Some (PDict listing) ->
        dict_lookup listing "children" = None ->
        exists w',
          search msd so v net em query sort time_window limit w
          = (w', Ok [])) /\
     (forall children,
        search_children (PDict entries) = Ok children ->
        Forall child_readable children ->
        exists w' posts,
          search msd so v net em query sort time_window limit w
          = (w', Ok posts) /\
          Forall2 (fun child post => child_post so child = Ok post)
                  (take (room (limit_by_spec msd v limit) 0) children)
                  posts)) /\
  (forall entries,
     dict_lookup entries "data" = None ->
     child_post so (PDict entries)
     = Ok (PDict [("title", PNone);
                  ("subreddit", PNone);
                  ("url", PStr "https://www.reddit.comNone");
                  ("score", PNone);
                  ("num_comments", PNone);
                  ("created_utc", PNone)])) /\
  (forall resp first second rest,
     net (comments_request v post_url (count_by_spec msd num_comments))
     = Ok resp ->
     raise_for_status resp = Ok tt ->
     content resp = Json (PList (first :: PDict second :: rest)) ->
     (dict_lookup second "data" = None ->
      exists w',
        get_top_comments msd v net em post_url num_comments w
        = (w', Ok [])) /\
     (forall listing,
        dict_lookup second "data" = Some (PDict listing) ->
        dict_lookup listing "children" = None ->
        exists w',
          get_top_comments msd v net em post_url num_comments w
          = (w', Ok [])) /\
     (forall children,
        comment_children (PList (first :: PDict second :: rest))
        = Ok children ->
        Forall child_readable children ->
        exists w' comments,
          get_top_comments msd v net em post_url num_comments w
          = (w', Ok comments) /\
          Forall2 (fun child comment => child_comment child = Ok comment)
                  (take (room (count_by_spec msd num_comments) 0)
                        (List.filter is_t1 children))
                  comments)) /\
  (forall entries,
     dict_lookup entries "data" = None ->
     child_comment (PDict entries)
     = Ok (PDict [("author", PNone); ("body", PNone); ("score", PNone)])).
Proof.
  intros Hem. split; [|split; [|split]].
  - intros resp entries Hnet Hstatus Hjson. split; [|split].
    + intros Hdata. eapply search_run; try eassumption.
      unfold search_posts, search_children. cbn. by rewrite Hdata.
    + intros listing Hdata Hchildren. eapply search_run; try eassumption.
      unfold search_posts, search_children. cbn. rewrite Hdata. cbn.
      by rewrite Hchildren.
    + intros children Hch Hreadable.
      destruct (mapM_child_post_total so
                  (take (room (limit_by_spec msd v limit) 0) children))
        as [posts Hposts]; [by apply Forall_take|].
      destruct (search_run msd so v net em query sort time_window limit w
                  resp (PDict entries) posts)
        as [w' Hrun]; try assumption.
      * unfold search_posts. rewrite Hch. cbn.
        by rewrite search_loop_start.
      * exists w', posts. split; [exact Hrun|]. by apply mapM_ok_Forall2.
  - intros entries Hdata. unfold child_post. cbn. by rewrite Hdata.
  - intros resp first second rest Hnet Hstatus Hjson.
    assert (Hlong : (Z.of_nat (length (first :: PDict second :: rest)) >? 1)
                    = true) by (apply Z.gtb_gt; cbn [length]; lia).
    split; [|split].
    + intros Hdata. eapply comments_run; try eassumption.
      unfold extract_comments, comment_children.
      cbn [py_len mbind result_bind]. rewrite Hlong.
      cbn. by rewrite Hdata.
    + intros listing Hdata Hchildren. eapply comments_run; try eassumption.
      unfold extract_comments, comment_children.
      cbn [py_len mbind result_bind]. rewrite Hlong.
      cbn. rewrite Hdata. cbn. by rewrite Hchildren.
    + intros children Hch Hreadable.
      destruct (comments_loop_total (count_by_spec msd num_comments)
                  children [] Hreadable) as [comments Hloop].
      destruct (comments_run msd v net em post_url num_comments w
                  resp (PList (first :: PDict second :: rest))
                  comments) as [w' Hrun]; try assumption.
      * unfold extract_comments. cbn [py_len mbind result_bind].
        rewrite Hlong, Hch. exact Hloop.
      * exists w', comments. split; [exact Hrun|].
        apply comments_loop_closed in Hloop as (records & -> & Hrecords).
        by apply mapM_ok_Forall2.
  - intros entries Hdata. unfold child_comment. cbn. by rewrite Hdata.
Qed.

(** A host whose search answer lacks ["data"] while the comment endpoint
    fails, and one whose comment answer lacks it while the search
    endpoint fails. *)
Lemma C10_defaulted_lookups_witness :
  (exists w',
     search 4300 example_str_other default_valves
            (failing_net false (Json (PDict []))) (Some quiet_emitter)
            "cats" "relevance" "all" "5" empty_world = (w', Ok [])) /\
  (exists w',
     get_top_comments 4300 default_valves
            (failing_net true (Json (PList [PDict []; PDict []])))
            (Some quiet_emitter) "https://x/comments/1/" "10"
            empty_world = (w', Ok [])).
Proof.
  assert (Hquiet : emitter_ok (Some quiet_emitter))
    by (intros cb payload [= <-]; left; reflexivity).
  split.
  - apply (proj1 (proj1 (C10_defaulted_lookups
                           4300 example_str_other default_valves
                           (failing_net false (Json (PDict [])))
                           (Some quiet_emitter)
                           "cats" "relevance" "all" "5"
                           "https://x/comments/1/" "10" empty_world Hquiet)
                        (mkResponse 200 (Json (PDict []))) []
                        eq_refl eq_refl eq_refl)).
    reflexivity.
  - apply (proj1 (proj1 (proj2 (proj2 (C10_defaulted_lookups
                           4300 example_str_other default_valves
                           (failing_net true
                              (Json (PList [PDict []; PDict []])))
                           (Some quiet_emitter)
                           "cats" "relevance" "all" "5"
                           "https://x/comments/1/" "10" empty_world Hquiet)))
                        (mkResponse 200 (Json (PList [PDict []; PDict []])))
                        (PDict []) [] [] eq_refl eq_refl eq_refl)).
    reflexivity.
Defined.

(** * Further properties of the handlers *)

(** ** The URL of the comment request *)

Lemma rstrip_slash_cons c rest :
  rstrip_slash (String c rest) =
  match rstrip_slash rest with
  | EmptyString => if Ascii.eqb c "/" then EmptyString else String c EmptyString
  | String c' rest' => String c (String c' rest')
  end.
Proof. reflexivity. Qed.

Lemma append_cons c s t : String c s +:+ t = String c (s +:+ t).
Proof. reflexivity. Qed.

Lemma rstrip_slash_slashes k : rstrip_slash (slashes k) = "".
Proof.
  induction k as [|k IH]; [reflexivity|].
  cbn [slashes]. by rewrite rstrip_slash_cons, IH.
Qed.

Lemma rstrip_slash_app_slashes s k :
  rstrip_slash (s +:+ slashes k) = rstrip_slash s.
Proof.
  induction s as [|c rest IH].
  - apply rstrip_slash_slashes.
  - rewrite append_cons. by rewrite !rstrip_slash_cons, IH.
Qed.

Lemma rstrip_slash_fixed s : ends_with_slash s = false -> rstrip_slash s = s.
Proof.
  induction s as [|c rest IH]; [reflexivity|].
  rewrite rstrip_slash_cons. destruct rest as [|c' rest'].
  - cbn. by intros ->.
  - intros Hend. by rewrite IH by exact Hend.
Qed.

(** X1.  [rstrip("/")] as [get_top_comments] uses it takes away the whole
    run of slashes at the end and nothing else: the string is its result
    followed by slashes only, and the result does not end in a slash. *)
Theorem X1_rstrip_slash_characterised s :
  (exists k, s = rstrip_slash s +:+ slashes k) /\
  ends_with_slash (rstrip_slash s) = false.
Proof.
  induction s as [|c rest [[k Hk] Hend]];
    [split; [by exists 0%nat|reflexivity]|].
  rewrite rstrip_slash_cons.
  destruct (rstrip_slash rest) as [|c' kept] eqn:Hrest.
  - change ("" +:+ slashes k) with (slashes k) in Hk.
    destruct (Ascii.eqb_spec c "/") as [->|Hc].
    + split; [exists (S k); by rewrite Hk | reflexivity].
    + split; [exists k; by rewrite append_cons, Hk|].
      cbn. by apply Ascii.eqb_neq.
  - split; [exists k; by rewrite append_cons, <- Hk | exact Hend].
Qed.

(** X2.  A post URL gives the same comment request with any number of
    slashes added at its end, and a URL that does not end in a slash is
    used as it is, followed by [.json]. *)
Theorem X2_comments_request_trailing_slashes v post_url k count :
  comments_request v (post_url +:+ slashes k) count
  = comments_request v post_url count /\
  (ends_with_slash post_url = false ->
   req_url (comments_request v post_url count) = post_url +:+ ".json").
Proof.
  unfold comments_request. split.
  - by rewrite rstrip_slash_app_slashes.
  - intros Hend. cbn. by rewrite rstrip_slash_fixed.
Qed.

Lemma X2_comments_request_trailing_slashes_witness :
  req_url (comments_request default_valves "https://x/comments/1" 10)
  = "https://x/comments/1.json".
Proof.
  apply (proj2 (X2_comments_request_trailing_slashes
                  default_valves "https://x/comments/1" 0 10)).
  reflexivity.
Defined.

(** ** What the host sees *)

(** X3.  When [search] returns, the callback has been handed exactly two
    payloads by the call: the start status, then a status marked done
    whose text gives the number of posts returned. *)
Theorem X3_search_status_sequence msd so v net em query sort time_window
    limit w w' posts :
  search msd so v net em query sort time_window limit w = (w', Ok posts) ->
  events w' =
    (events w
     ++ emitted em (search_start query) false false
     ++ emitted em (search_done posts) true false)%list.
Proof.
  rewrite search_unfold. cbn zeta.
  destruct (_emit_status _ _ _ _ _ w) as [w1 [[]|e]] eqn:Hstart;
    [|discriminate].
  destruct (_ ≫= _) as [posts'|e]; [|discriminate].
  destruct (_emit_status _ _ _ _ _ (sent _ w1)) as [w2 [[]|e]] eqn:Hdone;
    [|discriminate].
  intros [= <- <-].
  apply emit_status_frame in Hstart as [Hev1 _].
  apply emit_status_frame in Hdone as [Hev2 _].
  rewrite Hev2. cbn [sent events]. rewrite Hev1. by rewrite <- app_assoc.
Qed.

Lemma X3_search_status_sequence_witness :
  events (fst (search 4300 example_str_other default_valves
                 (constant_net 200 (Json example_search_data))
                 (Some quiet_emitter) "cats" "relevance" "all" "5"
                 empty_world))
  = [status_payload "Searching Reddit for ‘cats’…" false false;
     status_payload "Retrieved 5 posts." true false].
Proof.
  apply (X3_search_status_sequence 4300 example_str_other default_valves
           (constant_net 200 (Json example_search_data))
           (Some quiet_emitter) "cats" "relevance" "all" "5" empty_world
           _ (map example_post [1; 2; 3; 4; 5])).
  vm_compute. reflexivity.
Defined.

(** X4.  When [get_top_comments] returns, the callback has been handed
    exactly two payloads by the call: the start status, then one marked
    done, which is hidden and reports the invalid format when the body
    did not decode, and otherwise gives the number of comments
    returned. *)
Theorem X4_comments_status_sequence msd v net em post_url num_comments
    w w' comments :
  get_top_comments msd v net em post_url num_comments w = (w', Ok comments) ->
  exists resp,
    net (comments_request v post_url (count_by_spec msd num_comments))
    = Ok resp /\
    events w' =
      (events w
       ++ emitted em comments_start false false
       ++ match content resp with
          | Malformed =>
              emitted em ("Could not fetch comments for " +:+ post_url
                          +:+ " (invalid format).") true true
          | Json _ => emitted em (comments_done comments) true false
          end)%list.
Proof.
  rewrite get_top_comments_unfold. cbn zeta.
  destruct (_emit_status _ _ _ _ _ w) as [w1 [[]|e]] eqn:Hstart;
    [|discriminate].
  apply emit_status_frame in Hstart as [Hev1 _].
  destruct (net _) as [resp|e] eqn:Hnet; [|discriminate]. cbn.
  destruct (raise_for_status resp) as [[]|e]; [|discriminate]. cbn.
  destruct (content resp) as [|payload] eqn:Hcontent.
  - destruct (_emit_status _ _ _ _ _ (sent _ w1)) as [w2 [[]|e]] eqn:Hdone;
      [|discriminate].
    intros [= <- <-]. exists resp. split; [reflexivity|]. rewrite Hcontent.
    apply emit_status_frame in Hdone as [Hev2 _].
    rewrite Hev2. cbn [sent events]. rewrite Hev1. by rewrite <- app_assoc.
  - destruct (extract_comments _ payload) as [comments'|e]; [|discriminate].
    destruct (_emit_status _ _ _ _ _ (sent _ w1)) as [w2 [[]|e]] eqn:Hdone;
      [|discriminate].
    intros [= <- <-]. exists resp. split; [reflexivity|]. rewrite Hcontent.
    apply emit_status_frame in Hdone as [Hev2 _].
    rewrite Hev2. cbn [sent events]. rewrite Hev1. by rewrite <- app_assoc.
Qed.

Lemma X4_comments_status_sequence_witness :
  exists resp,
    constant_net 200 (Json example_comment_payload)
      (comments_request default_valves "https://x/comments/1/" 2) = Ok resp /\
    events (fst (get_top_comments 4300 default_valves
                   (constant_net 200 (Json example_comment_payload))
                   (Some quiet_emitter) "https://x/comments/1/" "2"
                   empty_world))
    = ([] ++ [status_payload "Fetching comments…" false false]
       ++ match content resp with
          | Malformed =>
              [status_payload
                 "Could not fetch comments for https://x/comments/1/ (invalid format)."
                 true true]
          | Json _ => [status_payload "Returned 2 comments." true false]
          end)%list.
Proof.
  apply (X4_comments_status_sequence 4300 default_valves
           (constant_net 200 (Json example_comment_payload))
           (Some quiet_emitter) "https://x/comments/1/" "2" empty_world
           _ [example_comment "ann"; example_comment "bob"]).
  vm_compute. reflexivity.
Defined.

(** X5.  When a handler raises and the callback is well behaved, the
    callback has been handed the start status only: no status marked
    done follows a failure.  The one request had gone out. *)
Theorem X5_no_done_status_on_failure msd so v net em query sort time_window
    limit post_url num_comments w :
  emitter_ok em ->
  (forall w' e,
     search msd so v net em query sort time_window limit w = (w', Raise e) ->
     events w' = (events w ++ emitted em (search_start query) false false)%list
     /\ requests w' =
          (requests w
           ++ [search_request v query sort time_window
                 (limit_by_spec msd v limit)])%list) /\
  (forall w' e,
     get_top_comments msd v net em post_url num_comments w = (w', Raise e) ->
     events w' = (events w ++ emitted em comments_start false false)%list
     /\ requests w' =
          (requests w
           ++ [comments_request v post_url
                 (count_by_spec msd num_comments)])%list).
Proof.
  intros Hem. split; intros w' e.
  - rewrite search_unfold. cbn zeta.
    destruct (emit_status_ok em (search_start query) false false w Hem)
      as [w1 Hstart].
    unfold search_start in Hstart. rewrite Hstart.
    apply emit_status_frame in Hstart as [Hev1 Hreq1].
    destruct (_ ≫= _) as [posts|e'].
    + emit_ok_step Hem w2. discriminate.
    + intros [= <- <-]. cbn [sent events requests].
      by rewrite Hev1, Hreq1.
  - rewrite get_top_comments_unfold. cbn zeta.
    destruct (emit_status_ok em comments_start false false w Hem)
      as [w1 Hstart].
    unfold comments_start in Hstart. rewrite Hstart.
    apply emit_status_frame in Hstart as [Hev1 Hreq1].
    destruct (_ ≫= _) as [resp|e'].
    + destruct (content resp) as [|payload].
      * emit_ok_step Hem w2. discriminate.
      * destruct (extract_comments _ payload) as [comments|e'].
        -- emit_ok_step Hem w2. discriminate.
        -- intros [= <- <-]. cbn [sent events requests].
           by rewrite Hev1, Hreq1.
    + intros [= <- <-]. cbn [sent events requests].
      by rewrite Hev1, Hreq1.
Qed.

Lemma X5_no_done_status_on_failure_witness :
  events (fst (search 4300 example_str_other default_valves
                 (constant_net 503 Malformed) (Some quiet_emitter)
                 "cats" "relevance" "all" "5" empty_world))
  = [status_payload "Searching Reddit for ‘cats’…" false false].
Proof.
  assert (Hquiet : emitter_ok (Some quiet_emitter))
    by (intros cb payload [= <-]; left; reflexivity).
  apply (proj1 (X5_no_done_status_on_failure
                  4300 example_str_other default_valves
                  (constant_net 503 Malformed) (Some quiet_emitter)
                  "cats" "relevance" "all" "5" "https://x/comments/1/" "10"
                  empty_world Hquiet) _ HTTPError).
  vm_compute. reflexivity.
Defined.

(** X6.  A transport failure of [requests.get] reaches the caller as it
    is, from either handler, once the one request has been tried. *)
Theorem X6_transport_failure_propagates msd so v net em query sort
    time_window limit post_url num_comments w :
  emitter_ok em ->
  (forall e,
     net (search_request v query sort time_window
            (limit_by_spec msd v limit)) = Raise e ->
     exists w',
       search msd so v net em query sort time_window limit w
       = (w', Raise e) /\
       length (requests w') = S (length (requests w))) /\
  (forall e,
     net (comments_request v post_url (count_by_spec msd num_comments))
     = Raise e ->
     exists w',
       get_top_comments msd v net em post_url num_comments w
       = (w', Raise e) /\
       length (requests w') = S (length (requests w))).
Proof.
  intros Hem. split; intros e Hnet.
  - rewrite search_unfold. cbn zeta.
    destruct (emit_status_ok em (search_start query) false false w Hem)
      as [w1 Hstart].
    unfold search_start in Hstart. rewrite Hstart, Hnet. cbn.
    eexists. split; [reflexivity|].
    apply emit_status_frame in Hstart as [_ Hreq].
    cbn. rewrite length_app, Hreq. cbn. lia.
  - rewrite get_top_comments_unfold. cbn zeta.
    destruct (emit_status_ok em comments_start false false w Hem)
      as [w1 Hstart].
    unfold comments_start in Hstart. rewrite Hstart, Hnet. cbn.
    eexists. split; [reflexivity|].
    apply emit_status_frame in Hstart as [_ Hreq].
    cbn. rewrite length_app, Hreq. cbn. lia.
Qed.

(** A host on which only the search endpoint cannot be reached, and one
    on which only the other URLs cannot. *)
Lemma X6_transport_failure_propagates_witness :
  (exists w',
     search 4300 example_str_other default_valves
            (failing_net true (Json example_comment_payload)) None
            "cats" "relevance" "all" "5" empty_world
     = (w', Raise RequestException) /\
     length (requests w') = 1%nat) /\
  (exists w',
     get_top_comments 4300 default_valves
            (failing_net false (Json example_search_data)) None
            "https://x/comments/1/" "10" empty_world
     = (w', Raise RequestException) /\
     length (requests w') = 1%nat).
Proof.
  assert (Hnone : emitter_ok None) by (intros cb payload; discriminate).
  split.
  - apply (proj1 (X6_transport_failure_propagates
                    4300 example_str_other default_valves
                    (failing_net true (Json example_comment_payload)) None
                    "cats" "relevance" "all" "5" "https://x/comments/1/"
                    "10" empty_world Hnone) RequestException).
    reflexivity.
  - apply (proj2 (X6_transport_failure_propagates
                    4300 example_str_other default_valves
                    (failing_net false (Json example_search_data)) None
                    "cats" "relevance" "all" "5" "https://x/comments/1/"
                    "10" empty_world Hnone) RequestException).
    reflexivity.
Defined.

(** X7.  The status callback does not change what a handler returns or
    requests: with a well-behaved callback, the result and the requests
    sent are those of the call without a callback. *)
Theorem X7_callback_does_not_change_result msd so v net em query sort
    time_window limit post_url num_comments w :
  emitter_ok em ->
  (snd (search msd so v net em query sort time_window limit w)
   = snd (search msd so v net None query sort time_window limit w) /\
   requests (fst (search msd so v net em query sort time_window limit w))
   = requests (fst (search msd so v net None query sort time_window
                      limit w))) /\
  (snd (get_top_comments msd v net em post_url num_comments w)
   = snd (get_top_comments msd v net None post_url num_comments w) /\
   requests (fst (get_top_comments msd v net em post_url num_comments w))
   = requests (fst (get_top_comments msd v net None post_url
                      num_comments w))).
Proof.
  intros Hem. split.
  - rewrite !search_unfold. cbn zeta.
    destruct (emit_status_ok em (search_start query) false false w Hem)
      as [w1 Hstart].
    unfold search_start in Hstart. rewrite Hstart.
    apply emit_status_frame in Hstart as [_ Hreq1].
    cbn [_emit_status mret M_ret].
    destruct (_ ≫= _) as [posts|e].
    + destruct (emit_status_ok em (search_done posts) true false
                  (sent (search_request v query sort time_window
                           (limit_by_spec msd v limit)) w1) Hem)
        as [w2 Hdone].
      unfold search_done in Hdone. rewrite Hdone.
      apply emit_status_frame in Hdone as [_ Hreq2].
      cbn. split; [reflexivity|]. rewrite Hreq2. cbn. by rewrite Hreq1.
    + cbn. split; [reflexivity|]. by rewrite Hreq1.
  - rewrite !get_top_comments_unfold. cbn zeta.
    destruct (emit_status_ok em comments_start false false w Hem)
      as [w1 Hstart].
    unfold comments_start in Hstart. rewrite Hstart.
    apply emit_status_frame in Hstart as [_ Hreq1].
    cbn [_emit_status mret M_ret].
    destruct (_ ≫= _) as [resp|e].
    + destruct (content resp) as [|payload].
      * destruct (emit_status_ok em
                    ("Could not fetch comments for " +:+ post_url
                     +:+ " (invalid format).") true true
                    (sent (comments_request v post_url
                             (count_by_spec msd num_comments)) w1) Hem)
          as [w2 Hdone].
        rewrite Hdone. apply emit_status_frame in Hdone as [_ Hreq2].
        cbn. split; [reflexivity|]. rewrite Hreq2. cbn. by rewrite Hreq1.
      * destruct (extract_comments _ payload) as [comments|e].
        -- destruct (emit_status_ok em (comments_done comments) true false
                       (sent (comments_request v post_url
                                (count_by_spec msd num_comments)) w1) Hem)
             as [w2 Hdone].
           unfold comments_done in Hdone. rewrite Hdone.
           apply emit_status_frame in Hdone as [_ Hreq2].
           cbn. split; [reflexivity|]. rewrite Hreq2. cbn. by rewrite Hreq1.
        -- cbn. split; [reflexivity|]. by rewrite Hreq1.
    + cbn. split; [reflexivity|]. by rewrite Hreq1.
Qed.

Lemma X7_callback_does_not_change_result_witness :
  snd (search 4300 example_str_other default_valves
         (constant_net 200 (Json example_search_data)) (Some async_emitter)
         "cats" "relevance" "all" "5" empty_world)
  = snd (search 4300 example_str_other default_valves
           (constant_net 200 (Json example_search_data)) None
           "cats" "relevance" "all" "5" empty_world).
Proof.
  apply (X7_callback_does_not_change_result
           4300 example_str_other default_valves
           (constant_net 200 (Json example_search_data)) (Some async_emitter)
           "cats" "relevance" "all" "5" "https://x/comments/1/" "10"
           empty_world).
  intros cb payload [= <-]. right. by exists (Ok tt).
Defined.

(** X8.  Whatever the caller passes as [limit] and whatever the host
    does, [search] under a validated configuration sends at most one
    request, and its [limit] parameter lies between 1 and 150.  The
    query, sort and time-window strings go into it unchecked. *)
Theorem X8_search_request_limit_in_range msd so v net em query sort
    time_window limit w :
  valves_valid v ->
  let w' := fst (search msd so v net em query sort time_window limit w) in
  requests w' = requests w \/
  exists actual_limit,
    1 <= actual_limit <= 150 /\
    requests w' =
      (requests w
       ++ [mkRequest search_url
             [("User-Agent", user_agent v)]
             [("q", PStr query); ("sort", PStr sort);
              ("t", PStr time_window); ("limit", PInt actual_limit);
              ("restrict_sr", PBool false); ("type", PStr "link")]
             10])%list.
Proof.
  intros Hv. cbn zeta. rewrite search_unfold. cbn zeta.
  destruct (_emit_status _ _ _ _ _ w) as [w1 [[]|e]] eqn:Hstart.
  - right. exists (limit_by_spec msd v limit).
    split; [by apply limit_by_spec_range|].
    apply emit_status_frame in Hstart as [_ Hreq1].
    destruct (_ ≫= _) as [posts|e].
    + destruct (_emit_status _ _ _ _ _ (sent _ w1)) as [w2 r] eqn:Hdone.
      apply emit_status_frame in Hdone as [_ Hreq2].
      destruct r as [[]|e]; cbn; rewrite Hreq2; cbn; by rewrite Hreq1.
    + cbn. by rewrite Hreq1.
  - left. cbn. by apply emit_status_frame in Hstart as [_ ->].
Qed.

Lemma X8_search_request_limit_in_range_witness :
  let w' := fst (search 4300 example_str_other default_valves
                   (constant_net 200 (Json example_search_data)) None
                   "cats" "newest" "fortnight" "9999" empty_world) in
  requests w' = [] \/
  exists actual_limit,
    1 <= actual_limit <= 150 /\
    requests w' =
      ([] ++ [mkRequest search_url
                [("User-Agent", user_agent default_valves)]
                [("q", PStr "cats"); ("sort", PStr "newest");
                 ("t", PStr "fortnight"); ("limit", PInt actual_limit);
                 ("restrict_sr", PBool false); ("type", PStr "link")]
                10])%list.
Proof.
  apply (X8_search_request_limit_in_range 4300 example_str_other
           default_valves (constant_net 200 (Json example_search_data)) None
           "cats" "newest" "fortnight" "9999" empty_world).
  unfold valves_valid. cbn. lia.
Defined.

(** X9.  Whatever the caller passes as [num_comments],
    [get_top_comments] sends at most one request; it asks for depth 1
    and for a [limit] of at least 1. *)
Theorem X9_comments_request_shape msd v net em post_url num_comments w :
  let w' := fst (get_top_comments msd v net em post_url num_comments w) in
  requests w' = requests w \/
  exists actual_num_comments,
    1 <= actual_num_comments /\
    requests w' =
      (requests w
       ++ [mkRequest (rstrip_slash post_url +:+ ".json")
             [("User-Agent", user_agent v)]
             [("limit", PInt actual_num_comments); ("depth", PInt 1)]
             10])%list.
Proof.
  cbn zeta. rewrite get_top_comments_unfold. cbn zeta.
  destruct (_emit_status _ _ _ _ _ w) as [w1 [[]|e]] eqn:Hstart.
  - right. exists (count_by_spec msd num_comments).
    split; [apply count_by_spec_positive|].
    apply emit_status_frame in Hstart as [_ Hreq1].
    destruct (_ ≫= _) as [resp|e].
    + destruct (content resp) as [|payload].
      * destruct (_emit_status _ _ _ _ _ (sent _ w1)) as [w2 r] eqn:Hdone.
        apply emit_status_frame in Hdone as [_ Hreq2].
        destruct r as [[]|e]; cbn; rewrite Hreq2; cbn; by rewrite Hreq1.
      * destruct (extract_comments _ payload) as [comments|e].
        -- destruct (_emit_status _ _ _ _ _ (sent _ w1)) as [w2 r] eqn:Hdone.
           apply emit_status_frame in Hdone as [_ Hreq2].
           destruct r as [[]|e]; cbn; rewrite Hreq2; cbn; by rewrite Hreq1.
        -- cbn. by rewrite Hreq1.
    + cbn. by rewrite Hreq1.
  - left. cbn. by apply emit_status_frame in Hstart as [_ ->].
Qed.

(** ** What the loops read *)

(** X10.  [search] never looks at a child beyond the limit: once the
    listing holds as many children as the limit allows, whatever follows
    them, well formed or not, changes nothing. *)
Theorem X10_search_ignores_children_past_limit so limit children extra :
  1 <= limit ->
  limit <= Z.of_nat (length children) ->
  search_loop so limit (children ++ extra) []
  = search_loop so limit children [].
Proof.
  intros Hpos Hlen. rewrite !search_loop_start, room_start by exact Hpos.
  by rewrite take_app_le by lia.
Qed.

Lemma X10_search_ignores_children_past_limit_witness :
  search_loop example_str_other 2
              ([example_child 1; example_child 2] ++ [PNone; PInt 7]) []
  = search_loop example_str_other 2 [example_child 1; example_child 2] [].
Proof.
  apply X10_search_ignores_children_past_limit; cbn; lia.
Defined.

Lemma comments_loop_app count children extra comments result :
  Z.of_nat (length comments) < count ->
  comments_loop count children comments = Ok result ->
  count <= Z.of_nat (length result) ->
  comments_loop count (children ++ extra) comments = Ok result.
Proof.
  revert comments. induction children as [|child rest IH];
    intros comments Hroom.
  - cbn. intros [= <-] Hfull. lia.
  - rewrite <- app_comm_cons, !comments_loop_cons.
    destruct (is_t1 child).
    + destruct (child_comment child) as [record|e]; [|discriminate]. cbn.
      destruct (Z.geb_spec (Z.of_nat (length (comments ++ [record]))) count)
        as [Hfull|Hmore]; [done|].
      apply IH. lia.
    + destruct (py_get child "kind" PNone); [|discriminate]. cbn.
      by apply IH.
Qed.

(** X11.  [get_top_comments] never looks at an entry after the one that
    fills the count: when the loop returns as many comments as the count
    asks for, entries added after those it read change nothing. *)
Theorem X11_comments_ignore_entries_past_count count children extra
    comments :
  1 <= count ->
  comments_loop count children [] = Ok comments ->
  count <= Z.of_nat (length comments) ->
  comments_loop count (children ++ extra) [] = Ok comments.
Proof.
  intros Hpos Hloop Hfull. eapply comments_loop_app; try eassumption.
  cbn. lia.
Qed.

Lemma X11_comments_ignore_entries_past_count_witness :
  comments_loop 2
    ([example_entry "t1" "ann"; example_entry "more" "";
      example_entry "t1" "bob"] ++ [PNone; example_entry "t1" "cy"]) []
  = Ok [example_comment "ann"; example_comment "bob"].
Proof.
  apply X11_comments_ignore_entries_past_count;
    [lia | reflexivity | cbn; lia].
Defined.

(** X12.  Under a validated configuration, the number of posts that
    [search] returns is the smaller of the effective limit and the
    number of children in the response. *)
Theorem X12_search_returns_min_of_limit_and_children msd so v net em query
    sort time_window limit w w' posts :
  valves_valid v ->
  search msd so v net em query sort time_window limit w = (w', Ok posts) ->
  exists resp data children,
    net (search_request v query sort time_window (limit_by_spec msd v limit))
    = Ok resp /\
    content resp = Json data /\
    search_children data = Ok children /\
    length posts
    = Nat.min (Z.to_nat (limit_by_spec msd v limit)) (length children).
Proof.
  intros Hv Hrun.
  pose proof (limit_by_spec_range msd v limit Hv) as Hrange.
  apply search_ok_inv in Hrun
    as (resp & data & children & Hnet & _ & Hjson & Hch & Hposts & _).
  exists resp, data, children. repeat split; try assumption.
  apply mapM_ok_length in Hposts.
  by rewrite Hposts, length_take, room_start by lia.
Qed.

Lemma X12_search_returns_min_of_limit_and_children_witness :
  exists resp data children,
    constant_net 200 (Json example_search_data)
      (search_request default_valves "cats" "relevance" "all"
         (limit_by_spec 4300 default_valves "20")) = Ok resp /\
    content resp = Json data /\
    search_children data = Ok children /\
    length (map example_post [1; 2; 3; 4; 5; 6; 7; 8])
    = Nat.min (Z.to_nat (limit_by_spec 4300 default_valves "20"))
              (length children).
Proof.
  apply (X12_search_returns_min_of_limit_and_children
           4300 example_str_other default_valves
           (constant_net 200 (Json example_search_data)) None
           "cats" "relevance" "all" "20" empty_world
           (fst (search 4300 example_str_other default_valves
                   (constant_net 200 (Json example_search_data)) None
                   "cats" "relevance" "all" "20" empty_world))).
  - unfold valves_valid. cbn. lia.
  - vm_compute. reflexivity.
Defined.

(** X13.  The number of comments that [get_top_comments] returns from a
    payload with a comment section is the smaller of the effective count
    and the number of entries of kind ["t1"]. *)
Theorem X13_comments_return_min_of_count_and_t1 msd v net em post_url
    num_comments w w' comments resp payload children :
  get_top_comments msd v net em post_url num_comments w = (w', Ok comments) ->
  net (comments_request v post_url (count_by_spec msd num_comments))
  = Ok resp ->
  content resp = Json payload ->
  comment_children payload = Ok children ->
  length comments
  = Nat.min (Z.to_nat (count_by_spec msd num_comments))
            (length (List.filter is_t1 children)).
Proof.
  intros Hrun Hnet Hjson Hch.
  pose proof (count_by_spec_positive msd num_comments) as Hpos.
  apply comments_ok_inv in Hrun as (resp' & Hnet' & _ & _ & Hcases).
  rewrite Hnet in Hnet'. injection Hnet' as <-.
  destruct Hcases as [[Hbad _]|(payload' & Hjson' & Hextract)];
    [congruence|].
  rewrite Hjson in Hjson'. injection Hjson' as <-.
  unfold extract_comments in Hextract.
  apply result_bind_ok in Hextract as (n & Hlen & Hextract).
  destruct (n >? 1) eqn:Hn.
  - rewrite Hch in Hextract. cbn in Hextract.
    apply comments_loop_closed in Hextract as (records & -> & Hrec).
    apply mapM_ok_length in Hrec. cbn [length app] in *.
    by rewrite Hrec, length_take, room_start by lia.
  - exfalso. unfold comment_children in Hch.
    apply result_bind_ok in Hch as (second & Hsecond & _).
    destruct payload as [| | | |s|items|entries]; try discriminate.
    + cbn in Hlen, Hsecond. injection Hlen as <-.
      destruct s as [|c1 [|c2 s]]; try discriminate.
      rewrite Z.gtb_ltb in Hn. apply Z.ltb_ge in Hn.
      cbn [String.length] in Hn. lia.
    + cbn in Hlen, Hsecond. injection Hlen as <-.
      destruct items as [|x1 [|x2 items]]; try discriminate.
      rewrite Z.gtb_ltb in Hn. apply Z.ltb_ge in Hn.
      cbn [length] in Hn. lia.
Qed.

Lemma X13_comments_return_min_of_count_and_t1_witness :
  length [example_comment "ann"; example_comment "bob";
          example_comment "cy"]
  = Nat.min (Z.to_nat (count_by_spec 4300 "10"))
      (length (List.filter is_t1
                 [example_entry "t1" "ann"; example_entry "more" "";
                  example_entry "t1" "bob"; example_entry "t1" "cy"])).
Proof.
  apply (X13_comments_return_min_of_count_and_t1 4300 default_valves
           (constant_net 200 (Json example_comment_payload)) None
           "https://x/comments/1/" "10" empty_world
           (fst (get_top_comments 4300 default_valves
                   (constant_net 200 (Json example_comment_payload)) None
                   "https://x/comments/1/" "10" empty_world))
           _ (mkResponse 200 (Json example_comment_payload))
           example_comment_payload).
  - vm_compute. reflexivity.
  - reflexivity.
  - reflexivity.
  - reflexivity.
Defined.

(** ** Responses of the wrong shape *)

Lemma py_get_not_a_dict v key default :
  not_a_dict v -> py_get v key default = Raise AttributeError.
Proof. intros Hv. destruct v; try reflexivity. by destruct (Hv entries). Qed.

Lemma py_iter_not_iterable v : not_iterable v -> py_iter v = Raise TypeError.
Proof. by destruct v. Qed.

Lemma py_len_not_iterable v : not_iterable v -> py_len v = Raise TypeError.
Proof. by destruct v. Qed.

Lemma post_record_not_a_dict so v :
  not_a_dict v -> post_record so v = Raise AttributeError.
Proof. intros Hv. destruct v; try reflexivity. by destruct (Hv entries). Qed.

(** A failure while the posts are extracted fails the call. *)
Lemma search_fail msd so v net em query sort time_window limit w resp data e :
  emitter_ok em ->
  net (search_request v query sort time_window (limit_by_spec msd v limit))
  = Ok resp ->
  raise_for_status resp = Ok tt ->
  content resp = Json data ->
  search_posts so (limit_by_spec msd v limit) data = Raise e ->
  exists w',
    search msd so v net em query sort time_window limit w = (w', Raise e).
Proof.
  intros Hem Hnet Hstatus Hjson Hposts.
  rewrite search_unfold. cbn zeta. emit_ok_step Hem w1.
  rewrite Hnet. cbn. rewrite Hstatus. cbn.
  apply response_json_content in Hjson. rewrite Hjson. cbn.
  rewrite Hposts. eauto.
Qed.

(** A failure while the comments are extracted fails the call. *)
Lemma comments_fail msd v net em post_url num_comments w resp payload e :
  emitter_ok em ->
  net (comments_request v post_url (count_by_spec msd num_comments))
  = Ok resp ->
  raise_for_status resp = Ok tt ->
  content resp = Json payload ->
  extract_comments (count_by_spec msd num_comments) payload = Raise e ->
  exists w',
    get_top_comments msd v net em post_url num_comments w = (w', Raise e).
Proof.
  intros Hem Hnet Hstatus Hjson Hextract.
  rewrite get_top_comments_unfold. cbn zeta. emit_ok_step Hem w1.
  rewrite Hnet. cbn. rewrite Hstatus. cbn. rewrite Hjson, Hextract. eauto.
Qed.

(** X14.  The defaults of [search] only cover keys that are missing.  A
    body that is not an object, a ["data"] that is present but not an
    object (JSON [null], say), and a first child that is not an object
    or whose ["data"] is present but not an object, each make the call
    raise [AttributeError]. *)
Theorem X14_search_present_non_object_raises msd so v net em query sort
    time_window limit w resp data :
  emitter_ok em ->
  net (search_request v query sort time_window (limit_by_spec msd v limit))
  = Ok resp ->
  raise_for_status resp = Ok tt ->
  content resp = Json data ->
  (not_a_dict data \/
   (exists entries value,
      data = PDict entries /\
      dict_lookup entries "data" = Some value /\
      not_a_dict value) \/
   (exists child rest,
      search_children data = Ok (child :: rest) /\
      (not_a_dict child \/
       exists entries value,
         child = PDict entries /\
         dict_lookup entries "data" = Some value /\
         not_a_dict value))) ->
  exists w',
    search msd so v net em query sort time_window limit w
    = (w', Raise AttributeError).
Proof.
  intros Hem Hnet Hstatus Hjson Hshape.
  eapply search_fail; try eassumption.
  unfold search_posts.
  destruct Hshape as [Hdata|[(entries & value & -> & Hlook & Hvalue)
                            |(child & rest & Hch & Hchild)]].
  - unfold search_children. by rewrite py_get_not_a_dict.
  - unfold search_children. cbn. rewrite Hlook. cbn.
    by rewrite py_get_not_a_dict.
  - rewrite Hch. cbn [mbind result_bind]. rewrite search_loop_cons.
    unfold child_post.
    destruct Hchild as [Hchild|(entries & value & -> & Hlook & Hvalue)].
    + by rewrite py_get_not_a_dict.
    + cbn [py_get]. rewrite Hlook. cbn [mbind result_bind].
      by rewrite post_record_not_a_dict.
Qed.

Lemma X14_search_present_non_object_raises_witness :
  exists w',
    search 4300 example_str_other default_valves
           (constant_net 200 (Json (PDict [("data", PNone)]))) None
           "cats" "relevance" "all" "5" empty_world
    = (w', Raise AttributeError).
Proof.
  apply (X14_search_present_non_object_raises
           4300 example_str_other default_valves
           (constant_net 200 (Json (PDict [("data", PNone)]))) None
           "cats" "relevance" "all" "5" empty_world
           (mkResponse 200 (Json (PDict [("data", PNone)])))
           (PDict [("data", PNone)]));
    [intros cb payload; discriminate | reflexivity | reflexivity
     | reflexivity |].
  right. left. exists [("data", PNone)], PNone.
  split; [reflexivity|]. split; [reflexivity|]. intros entries. discriminate.
Defined.

(** X15.  A decoded comment payload of the wrong shape makes
    [get_top_comments] raise: [TypeError] when it has no length (null, a
    number, a boolean), [KeyError] when it is an object with two keys or
    more, [AttributeError] when it is an array whose second element is
    not an object. *)
Theorem X15_comments_payload_shape_errors msd v net em post_url num_comments
    w resp payload :
  emitter_ok em ->
  net (comments_request v post_url (count_by_spec msd num_comments))
  = Ok resp ->
  raise_for_status resp = Ok tt ->
  content resp = Json payload ->
  (not_iterable payload ->
   exists w',
     get_top_comments msd v net em post_url num_comments w
     = (w', Raise TypeError)) /\
  (forall entries,
     payload = PDict entries ->
     (2 <= length entries)%nat ->
     exists w',
       get_top_comments msd v net em post_url num_comments w
       = (w', Raise KeyError)) /\
  (forall first second rest,
     payload = PList (first :: second :: rest) ->
     not_a_dict second ->
     exists w',
       get_top_comments msd v net em post_url num_comments w
       = (w', Raise AttributeError)).
Proof.
  intros Hem Hnet Hstatus Hjson. split; [|split].
  - intros Hpayload. eapply comments_fail; try eassumption.
    unfold extract_comments. by rewrite py_len_not_iterable.
  - intros entries -> Hlen. eapply comments_fail; try eassumption.
    unfold extract_comments. cbn [py_len mbind result_bind].
    by rewrite (proj2 (Z.gtb_gt _ _)) by lia.
  - intros first second rest -> Hsecond.
    eapply comments_fail; try eassumption.
    unfold extract_comments, comment_children.
    cbn [py_len mbind result_bind].
    rewrite (proj2 (Z.gtb_gt _ _)) by (cbn [length]; lia).
    cbn. by rewrite py_get_not_a_dict.
Qed.

Lemma X15_comments_payload_shape_errors_witness :
  exists w',
    get_top_comments 4300 default_valves
      (constant_net 200 (Json (PDict [("kind", PStr "Listing");
                                      ("data", PDict [])])))
      None "https://x/comments/1/" "10" empty_world
    = (w', Raise KeyError).
Proof.
  pose proof (X15_comments_payload_shape_errors 4300 default_valves
                (constant_net 200 (Json (PDict [("kind", PStr "Listing");
                                                ("data", PDict [])])))
                None "https://x/comments/1/" "10" empty_world
                (mkResponse 200 (Json (PDict [("kind", PStr "Listing");
                                              ("data", PDict [])])))
                (PDict [("kind", PStr "Listing"); ("data", PDict [])]))
    as Hshape.
  destruct Hshape as (_ & Hkey & _);
    [intros cb payload; discriminate | reflexivity | reflexivity
     | reflexivity |].
  apply (Hkey [("kind", PStr "Listing"); ("data", PDict [])]);
    first [reflexivity | cbn; lia].
Defined.

(** X16.  A ["children"] that is present but cannot be iterated (JSON
    [null], a number, a boolean) makes either handler raise
    [TypeError]: the default list only stands in for a missing key. *)
Theorem X16_children_not_iterable_raises msd so v net em query sort
    time_window limit post_url num_comments w :
  emitter_ok em ->
  (forall resp entries listing value,
     net (search_request v query sort time_window
            (limit_by_spec msd v limit)) = Ok resp ->
     raise_for_status resp = Ok tt ->
     content resp = Json (PDict entries) ->
     dict_lookup entries "data" = Some (PDict listing) ->
     dict_lookup listing "children" = Some value ->
     not_iterable value ->
     exists w',
       search msd so v net em query sort time_window limit w
       = (w', Raise TypeError)) /\
  (forall resp first second rest listing value,
     net (comments_request v post_url (count_by_spec msd num_comments))
     = Ok resp ->
     raise_for_status resp = Ok tt ->
     content resp = Json (PList (first :: PDict second :: rest)) ->
     dict_lookup second "data" = Some (PDict listing) ->
     dict_lookup listing "children" = Some value ->
     not_iterable value ->
     exists w',
       get_top_comments msd v net em post_url num_comments w
       = (w', Raise TypeError)).
Proof.
  intros Hem. split.
  - intros resp entries listing value Hnet Hstatus Hjson Hdata Hchildren
           Hvalue.
    eapply search_fail; try eassumption.
    unfold search_posts, search_children. cbn. rewrite Hdata. cbn.
    rewrite Hchildren. cbn. by rewrite py_iter_not_iterable.
  - intros resp first second rest listing value Hnet Hstatus Hjson Hdata
           Hchildren Hvalue.
    eapply comments_fail; try eassumption.
    unfold extract_comments, comment_children.
    cbn [py_len mbind result_bind].
    rewrite (proj2 (Z.gtb_gt _ _)) by (cbn [length]; lia).
    cbn. rewrite Hdata. cbn. rewrite Hchildren. cbn.
    by rewrite py_iter_not_iterable.
Qed.

(** A host whose search answer has a [null] listing while its comment
    answer is in order, and the other way round. *)
Lemma X16_children_not_iterable_raises_witness :
  (exists w',
     search 4300 example_str_other default_valves
       (routing_net
          (Json (PDict [("data", PDict [("children", PNone)])]))
          (Json example_comment_payload))
       None "cats" "relevance" "all" "5" empty_world
     = (w', Raise TypeError)) /\
  (exists w',
     get_top_comments 4300 default_valves
       (routing_net
          (Json example_search_data)
          (Json (PList [PDict [];
                        PDict [("data", PDict [("children", PNone)])]])))
       None "https://x/comments/1/" "10" empty_world
     = (w', Raise TypeError)).
Proof.
  assert (Hnone : emitter_ok None) by (intros cb payload; discriminate).
  split.
  - apply (proj1 (X16_children_not_iterable_raises
                    4300 example_str_other default_valves
                    (routing_net
                       (Json (PDict [("data", PDict [("children", PNone)])]))
                       (Json example_comment_payload))
                    None "cats" "relevance" "all" "5"
                    "https://x/comments/1/" "10" empty_world Hnone)
                 (mkResponse 200
                    (Json (PDict [("data", PDict [("children", PNone)])])))
                 [("data", PDict [("children", PNone)])]
                 [("children", PNone)] PNone);
      first [reflexivity | exact I].
  - apply (proj2 (X16_children_not_iterable_raises
                    4300 example_str_other default_valves
                    (routing_net
                       (Json example_search_data)
                       (Json (PList [PDict [];
                                     PDict [("data",
                                             PDict [("children", PNone)])]])))
                    None "cats" "relevance" "all" "5"
                    "https://x/comments/1/" "10" empty_world Hnone)
                 (mkResponse 200
                    (Json (PList [PDict [];
                                  PDict [("data",
                                          PDict [("children", PNone)])]])))
                 (PDict []) [("data", PDict [("children", PNone)])] []
                 [("children", PNone)] PNone);
      first [reflexivity | exact I].
Defined.

(** ** The status callback *)

(** X17.  A callback that accepts the start status and throws on the
    completion status makes [search] fail after the posts were fetched
    and built: the caller gets the callback's exception, not the
    posts. *)
Theorem X17_failure_at_completion_loses_posts msd so v net cb query sort
    time_window limit w resp data posts e :
  cb (status_payload (search_start query) false false) = Ok NotAwaitable ->
  net (search_request v query sort time_window (limit_by_spec msd v limit))
  = Ok resp ->
  raise_for_status resp = Ok tt ->
  content resp = Json data ->
  search_posts so (limit_by_spec msd v limit) data = Ok posts ->
  cb (status_payload (search_done posts) true false) = Raise e ->
  exists w',
    search msd so v net (Some cb) query sort time_window limit w
    = (w', Raise e) /\
    requests w' =
      (requests w
       ++ [search_request v query sort time_window
             (limit_by_spec msd v limit)])%list.
Proof.
  intros Hstart Hnet Hstatus Hjson Hposts Hdone.
  rewrite search_unfold. cbn zeta.
  cbn [_emit_status]. unfold mbind at 1, M_bind at 1, call_emitter at 1.
  unfold search_start in Hstart. rewrite Hstart.
  cbn [mret M_ret].
  rewrite Hnet. cbn [mbind result_bind]. rewrite Hstatus.
  cbn [mbind result_bind].
  apply response_json_content in Hjson. rewrite Hjson.
  cbn [mbind result_bind]. rewrite Hposts.
  unfold mbind, M_bind, call_emitter.
  unfold search_done in Hdone. rewrite Hdone.
  eexists. split; reflexivity.
Qed.

Lemma X17_failure_at_completion_loses_posts_witness :
  exists w',
    search 4300 example_str_other default_valves
           (constant_net 200 (Json example_search_data))
           (Some done_failing_emitter) "cats" "relevance" "all" "5"
           empty_world
    = (w', Raise (EmitterError "late")) /\
    requests w' =
      ([] ++ [search_request default_valves "cats" "relevance" "all"
                (limit_by_spec 4300 default_valves "5")])%list.
Proof.
  apply (X17_failure_at_completion_loses_posts
           4300 example_str_other default_valves
           (constant_net 200 (Json example_search_data))
           done_failing_emitter "cats" "relevance" "all" "5" empty_world
           (mkResponse 200 (Json example_search_data)) example_search_data
           (map example_post [1; 2; 3; 4; 5]));
    reflexivity.
Defined.

(** X18.  Each call of [_emit_status] with a registered callback calls
    it exactly once, whatever the callback does and whether or not a
    loop is running: the callback gets the one payload of type
    ["status"] with the description and the two flags, at most one task
    is scheduled, and no request is sent. *)
Theorem X18_emit_status_calls_callback_once lr cb description done hidden w :
  let w' := fst (_emit_status lr (Some cb) description done hidden w) in
  events w' =
    (events w
     ++ [PDict [("type", PStr "status");
                ("data", PDict [("description", PStr description);
                                ("done", PBool done);
                                ("hidden", PBool hidden)])]])%list /\
  requests w' = requests w /\
  (tasks w' = tasks w \/ exists a, tasks w' = (tasks w ++ [a])%list).
Proof.
  cbn zeta. cbn [_emit_status]. unfold mbind, M_bind, call_emitter.
  destruct (cb _) as [[|a]|e]; cbn; [auto..|].
  - unfold M_try_except, create_task, asyncio_run, lift.
    destruct lr, a as [outcome|]; cbn; eauto.
  - auto.
Qed.

(** X19.  With a running loop, a callback that hands back an awaitable
    that is not a coroutine makes [_emit_status] raise [TypeError]: only
    [RuntimeError] is caught around [create_task].  A handler then fails
    at its start status, before any request is sent. *)
Theorem X19_non_coroutine_awaitable_raises msd so v net cb query sort
    time_window limit w :
  cb (status_payload (search_start query) false false)
  = Ok (Awaitable OtherAwaitable) ->
  snd (_emit_status true (Some cb) (search_start query) false false w)
  = Raise TypeError /\
  exists w',
    search msd so v net (Some cb) query sort time_window limit w
    = (w', Raise TypeError) /\
    requests w' = requests w.
Proof.
  intros Hcb. split.
  - cbn [_emit_status]. unfold mbind, M_bind, call_emitter.
    by rewrite Hcb.
  - rewrite search_unfold. cbn zeta.
    cbn [_emit_status]. unfold mbind at 1, M_bind at 1, call_emitter at 1.
    unfold search_start in Hcb. rewrite Hcb.
    eexists. split; reflexivity.
Qed.

Lemma X19_non_coroutine_awaitable_raises_witness :
  exists w',
    search 4300 example_str_other default_valves
           (constant_net 200 (Json example_search_data))
           (Some future_emitter) "cats" "relevance" "all" "5" empty_world
    = (w', Raise TypeError) /\
    requests w' = [].
Proof.
  apply (X19_non_coroutine_awaitable_raises
           4300 example_str_other default_valves
           (constant_net 200 (Json example_search_data))
           future_emitter "cats" "relevance" "all" "5" empty_world).
  reflexivity.
Defined.

(** X20.  An asynchronous callback is fired and forgotten: when
    [search] returns with a callback that hands back coroutines, the
    two coroutines have been put on the loop as tasks, in order, and
    what they do when they run (failing included) has no part in the
    call. *)
Theorem X20_async_callback_tasks_scheduled msd so v net cb query sort
    time_window limit w w' posts start_outcome done_outcome :
  cb (status_payload (search_start query) false false)
  = Ok (Awaitable (Coroutine start_outcome)) ->
  cb (status_payload (search_done posts) true false)
  = Ok (Awaitable (Coroutine done_outcome)) ->
  search msd so v net (Some cb) query sort time_window limit w
  = (w', Ok posts) ->
  tasks w' =
    (tasks w ++ [Coroutine start_outcome; Coroutine done_outcome])%list.
Proof.
  intros Hstart Hdone. rewrite search_unfold. cbn zeta.
  cbn [_emit_status]. unfold mbind at 1, M_bind at 1, call_emitter at 1.
  unfold search_start in Hstart. rewrite Hstart.
  unfold M_try_except at 1, create_task at 1.
  destruct (_ ≫= _) as [posts'|e]; [|discriminate].
  unfold mbind, M_bind, call_emitter.
  unfold search_done in Hdone.
  destruct (cb (status_payload
                  ("Retrieved " +:+ pretty (length posts') +:+ " posts.")
                  true false)) as [[|a]|e] eqn:Hcb;
    cbn; try discriminate.
  - intros [= <- <-]. congruence.
  - unfold M_try_except, create_task.
    destruct a as [outcome|]; cbn; [|discriminate].
    intros [= <- <-]. rewrite Hdone in Hcb. injection Hcb as <-.
    cbn [tasks]. rewrite <- app_assoc. reflexivity.
Qed.

Lemma X20_async_callback_tasks_scheduled_witness :
  tasks (fst (search 4300 example_str_other default_valves
                (constant_net 200 (Json example_search_data))
                (Some (fun _ => Ok (Awaitable (Coroutine (Raise ValueError)))))
                "cats" "relevance" "all" "5" empty_world))
  = ([] ++ [Coroutine (Raise ValueError); Coroutine (Raise ValueError)])%list.
Proof.
  apply (X20_async_callback_tasks_scheduled
           4300 example_str_other default_valves
           (constant_net 200 (Json example_search_data))
           (fun _ => Ok (Awaitable (Coroutine (Raise ValueError))))
           "cats" "relevance" "all" "5" empty_world _
           (map example_post [1; 2; 3; 4; 5]));
    [reflexivity | reflexivity | vm_compute; reflexivity].
Defined.
